(** * Run execution core of digitalhub-sdk: a shallow embedding

    The development follows [sdk/entities/runs/entity.py] (the [Run] entity,
    its task-string parser and its build / run protocol) and
    [sdk/runtimes/objects/dbt.py] (the DBT runtime).  Python values are a
    small universe of JSON-like values, dictionaries are finite maps,
    exceptions are data, and a method is a function that threads the object
    it mutates and the outside world. *)

From Stdlib Require Import Ascii.
From Stdlib Require String.
From stdpp Require Import gmap strings list fin_maps.

Local Set Warnings "-register-all".

(* ===================================================================== *)
(** * Part I: definitions                                                  *)
(* ===================================================================== *)

(** ** Python values *)

Inductive pyval :=
| PNone
| PBool (b : bool)
| PInt (z : Z)
| PStr (s : string)
| PList (l : list pyval)
| PDict (d : gmap string pyval).

(** A dictionary with string keys. *)
Abbreviation dict := (gmap string pyval).

(** ** Exceptions

    The classes that the modelled code raises or that the interpreter raises
    on its behalf.  [OtherException] stands for any further subclass of
    [Exception]; [BaseExceptionOnly] for the classes that derive from
    [BaseException] but not from [Exception] (KeyboardInterrupt, SystemExit,
    GeneratorExit), which an [except Exception] clause does not catch. *)

Inductive exn_class :=
| EntityError
| RuntimeError
| ValueError
| IndexError
| TypeError
| AttributeError
| NotImplementedError
| OtherException (name : string)
| BaseExceptionOnly (name : string).

(** [exn_str] is the result of [str(e)]. *)
Record exn := Exn { exn_cls : exn_class; exn_str : string }.

Definition is_Exception (e : exn) : bool :=
  match exn_cls e with
  | BaseExceptionOnly _ => false
  | _ => true
  end.

Inductive result (A : Type) :=
| Ok (a : A)
| Raise (e : exn).
Arguments Ok {A} a.
Arguments Raise {A} e.

Definition rbind {A B} (r : result A) (k : A → result B) : result B :=
  match r with
  | Ok a => k a
  | Raise e => Raise e
  end.

(** ** Strings: the [str] methods the code calls *)

Module PyStr.

Definition char_eqb (a b : ascii) : bool := Ascii.eqb a b.

Fixpoint drop (n : nat) (s : string) : string :=
  match n, s with
  | 0, _ => s
  | S n', String _ s' => drop n' s'
  | S _, EmptyString => EmptyString
  end.

Fixpoint count_char (c : ascii) (s : string) : nat :=
  match s with
  | EmptyString => 0
  | String x s' => (if char_eqb c x then 1 else 0) + count_char c s'
  end.

(** [sub in s]. *)
Fixpoint contains (sub s : string) : bool :=
  String.prefix sub s ||
  match s with
  | EmptyString => false
  | String _ s' => contains sub s'
  end.

Definition cons_head (c : ascii) (l : list string) : list string :=
  match l with
  | x :: xs => String c x :: xs
  | [] => [String c EmptyString]
  end.

(** [s.split(sep)] for a non-empty separator: the string is scanned from
    the left, each occurrence of [sep] closes the current piece and the
    scan resumes after it.  [skip] counts the characters of a matched
    separator that are still to be passed over. *)
Fixpoint split_go (sep : string) (skip : nat) (s : string) : list string :=
  match s with
  | EmptyString => [EmptyString]
  | String c s' =>
      match skip with
      | S k => split_go sep k s'
      | 0 =>
          if String.prefix sep s
          then EmptyString :: split_go sep (String.length sep - 1) s'
          else cons_head c (split_go sep 0 s')
      end
  end.

Definition split (sep s : string) : list string := split_go sep 0 s.

(** [sep.join(l)]. *)
Definition join (sep : string) (l : list string) : string :=
  String.concat sep l.

(** [s.replace(old, new)] for a non-empty [old]: every occurrence found by
    the left-to-right scan is replaced, which is [new.join(s.split(old))]. *)
Definition replace (old new s : string) : string :=
  join new (split old s).

End PyStr.

(** The double quote character, for the templates and messages that print it. *)
Definition dq : string := String "034"%char EmptyString.

(** [type(v).__name__]. *)
Definition py_type_name (v : pyval) : string :=
  match v with
  | PNone => "NoneType"
  | PBool _ => "bool"
  | PInt _ => "int"
  | PStr _ => "str"
  | PList _ => "list"
  | PDict _ => "dict"
  end.

Definition no_attribute {A} (v : pyval) (attr : string) : result A :=
  Raise (Exn AttributeError
    ("'" +:+ py_type_name v +:+ "' object has no attribute '" +:+ attr +:+ "'")).

(** [v.get(k)]: [None] when the key is absent. *)
Definition py_get (v : pyval) (k : string) : result pyval :=
  match v with
  | PDict d => Ok (default PNone (d !! k))
  | _ => no_attribute v "get"
  end.

(** [v.get(k, dflt)]. *)
Definition py_get_default (v : pyval) (k : string) (dflt : pyval) : result pyval :=
  match v with
  | PDict d => Ok (default dflt (d !! k))
  | _ => no_attribute v "get"
  end.

(** [v == s] for a string [s]: only an equal string compares equal. *)
Definition py_eq_str (v : pyval) (s : string) : bool :=
  match v with
  | PStr s' => bool_decide (s' = s)
  | _ => false
  end.

(** [v.split(sep)]. *)
Definition py_split (v : pyval) (sep : string) : result (list string) :=
  match v with
  | PStr s => Ok (PyStr.split sep s)
  | _ => no_attribute v "split"
  end.

(** [a, b = l]. *)
Definition unpack2 {A} (l : list A) : result (A * A) :=
  match l with
  | [a; b] => Ok (a, b)
  | [] => Raise (Exn ValueError "not enough values to unpack (expected 2, got 0)")
  | [_] => Raise (Exn ValueError "not enough values to unpack (expected 2, got 1)")
  | _ => Raise (Exn ValueError "too many values to unpack (expected 2)")
  end.

(** [l[i]] for [i >= 0]. *)
Definition py_index {A} (l : list A) (i : nat) : result A :=
  match l !! i with
  | Some x => Ok x
  | None => Raise (Exn IndexError "list index out of range")
  end.

(** ** The task string ([entity.py], [TaskString] and [_parse_task_string]) *)

Record TaskString := mkTaskString {
  function_kind : string;
  task_kind : string;
  function_name : string;
  function_id : string;
  task_id : pyval;
}.

(** [Run._parse_task_string], on the values of [self.spec.task] and
    [self.spec.task_id]. *)
Definition parse_task_string (task : pyval) (tid : pyval) : result TaskString :=
  rbind (py_split task "://") (λ l,
  rbind (unpack2 l) (λ '(kinds, func),
  rbind (unpack2 (PyStr.split "+" kinds)) (λ '(fnc_kind, tsk_kind),
  rbind (py_index (PyStr.split "/" func) 1) (λ seg,
  rbind (unpack2 (PyStr.split ":" seg)) (λ '(fnc_name, fnc_id),
  Ok (mkTaskString fnc_kind tsk_kind fnc_name fnc_id tid)))))).

(** Modelled from the spec: no function under src/ writes a task string.
    This is the persisted format of section 6,
    [<functionKind>+<taskKind>://<path>/<functionName>:<functionId>]. *)
Definition encode_task_string (k1 k2 p n i : string) : string :=
  k1 +:+ "+" +:+ k2 +:+ "://" +:+ p +:+ "/" +:+ n +:+ ":" +:+ i.

Definition no_char (c : ascii) (s : string) : Prop := PyStr.count_char c s = 0.

(** The format as section 4.1 words it: the string is built from the five
    parts, and the name/id pair, with its single [:], comes after the last
    [/]. *)
Definition documented_format (s : string) : Prop :=
  ∃ k1 k2 p n i,
    s = encode_task_string k1 k2 p n i
    ∧ no_char "/" n ∧ no_char "/" i
    ∧ no_char ":" n ∧ no_char ":" i.

(** The shape of the strings that [_parse_task_string] accepts: two kinds
    joined by [+], [://], a first segment, and the name/id pair in the second
    [/]-separated segment; further segments may follow.  The string is cut
    at [://] into exactly two pieces: the kinds hold no [://], and what
    follows the first [://] holds no other. *)
Definition accepted_shape (s : string) : Prop :=
  ∃ k1 k2 p n i rest,
    s = encode_task_string k1 k2 p n i +:+ rest
    ∧ no_char "+" k1 ∧ no_char "+" k2
    ∧ no_char "/" p ∧ no_char "/" n ∧ no_char "/" i
    ∧ no_char ":" n ∧ no_char ":" i
    ∧ (rest = "" ∨ ∃ r, rest = "/" +:+ r)
    ∧ PyStr.contains "://" k1 = false ∧ PyStr.contains "://" k2 = false
    ∧ PyStr.contains "://" (p +:+ "/" +:+ n +:+ ":" +:+ i +:+ rest) = false.

(** ** State and exceptions

    A computation reads and updates a state [S] and either returns a value
    or raises.  The state reached when an exception is raised is kept: what
    a method assigned before it failed stays assigned. *)

Definition M (S A : Type) : Type := S → S * result A.

Definition ret {S A} (a : A) : M S A := λ s, (s, Ok a).

Definition raise {S A} (e : exn) : M S A := λ s, (s, Raise e).

Definition bind {S A B} (m : M S A) (k : A → M S B) : M S B :=
  λ s, match m s with
       | (s', Ok a) => k a s'
       | (s', Raise e) => (s', Raise e)
       end.

Definition lift {S A} (r : result A) : M S A := λ s, (s, r).

(** [try: m  except Exception as e: h e]. *)
Definition try_except_Exception {S A} (m : M S A) (h : exn → M S A) : M S A :=
  λ s, match m s with
       | (s', Ok a) => (s', Ok a)
       | (s', Raise e) => if is_Exception e then h e s' else (s', Raise e)
       end.

Notation "'do' x <- m ; k" := (bind m (λ x, k))
  (at level 10, x name, m at level 100, k at level 200).
Notation "m ;; k" := (bind m (λ _, k))
  (at level 100, k at level 200, right associativity).

(** ** The backend and the other collaborators of [Run] *)

(** The entity kinds of [sdk.utils.commons] and the endpoint builders of
    [sdk.utils.api], kept symbolic. *)
Inductive dto := RUNS | FUNC | TASK.

Inductive api :=
| api_base_create (d : dto)
| api_base_read (d : dto) (id : pyval)
| api_base_update (d : dto) (id : pyval)
| api_ctx_read (project : string) (d : dto) (name id : string).

(** A runtime ([sdk.runtimes.objects.base.Runtime]): [build], [run] and the
    task kinds it allows. *)
Record Runtime (W : Type) := mkRuntime {
  rt_build : dict → dict → dict → M W pyval;
  rt_run : dict → M W pyval;
  rt_get_allowed_tasks : list string;
}.
Arguments mkRuntime {W}.
Arguments rt_build {W}.
Arguments rt_run {W}.
Arguments rt_get_allowed_tasks {W}.

(** ** The Run entity ([entity.py]) *)

(** Modelled from the spec: the [State] enum of [sdk.entities.base.status]
    (named [StatusState] in [dbt.py]) is not under src/; its values are the
    state names of section 4.2. *)
Definition State_CREATED : string := "CREATED".
Definition State_PENDING : string := "PENDING".
Definition State_COMPLETED : string := "COMPLETED".
Definition State_ERROR : string := "ERROR".

Record RunMetadata := mkRunMetadata {
  project : string;
  metadata_rest : dict;
}.

Record Run := mkRun {
  run_id : pyval;
  run_kind : string;
  run_metadata : RunMetadata;
  run_spec : dict;
  run_status : dict;
  run_local : bool;
}.

Definition set_id (v : pyval) (r : Run) : Run :=
  mkRun v (run_kind r) (run_metadata r) (run_spec r) (run_status r) (run_local r).
Definition set_spec (d : dict) (r : Run) : Run :=
  mkRun (run_id r) (run_kind r) (run_metadata r) d (run_status r) (run_local r).
Definition set_status (d : dict) (r : Run) : Run :=
  mkRun (run_id r) (run_kind r) (run_metadata r) (run_spec r) d (run_local r).

(** [self.spec.<attr>]; an attribute that was never given is [None]. *)
Definition spec_attr (r : Run) (attr : string) : pyval :=
  default PNone (run_spec r !! attr).

(** [self.status.state], [None] while the state is the implicit initial one. *)
Definition status_state (r : Run) : pyval :=
  default PNone (run_status r !! "state").

(** What a [Run] calls outside of its own module: the context of its project
    ([create_object], [update_object], [read_object]), the runtime registry
    ([build_runtime]), the entity lookups, and [to_dict], which [Run]
    inherits from the [Entity] base class. *)
Class RunEnv (W : Type) := {
  Artifact : Type;
  DataitemEntity : Type;
  to_dict : bool → Run → dict;
  create_object : dict → api → M W dict;
  update_object : dict → api → M W dict;
  read_object : api → M W dict;
  build_runtime : string → result (Runtime W);
  get_artifact_from_key : pyval → M W Artifact;
  get_dataitem_from_key : pyval → M W DataitemEntity;
}.

(** [to_dict] shows the spec and the status of the object under the keys
    [spec] and [status]. *)
Definition to_dict_shows_spec_status {W} `{RunEnv W} : Prop :=
  ∀ b r, to_dict b r !! "spec" = Some (PDict (run_spec r))
         ∧ to_dict b r !! "status" = Some (PDict (run_status r)).

(** Modelled from the spec: [build_spec] is not under src/.  With
    [ignore_validation=True] the keyword arguments become the spec as they
    are (section 4.4: the merged result replaces the spec, skipping
    validation).  What the call in [Run.build] itself rejects, a keyword
    given twice, is in [Run_build]; the names of the parameters that
    [build_spec] takes by position are not in src/. *)
Definition build_spec_ignore_validation (kwargs : dict) : dict := kwargs.

(** Modelled from the spec: [build_status] is not under src/.  The status
    object carries the mapping it is built from (section 4.4: the returned
    mapping becomes the new status). *)
Definition build_status (kwargs : dict) : dict := kwargs.

(** The status that [Run.run] builds from an exception of the runtime. *)
Definition error_status (e : exn) : dict :=
  <["state" := PStr State_ERROR]> (<["message" := PStr (exn_str e)]> ∅).

(** [**v]: the argument must be a mapping. *)
Definition py_kwargs (v : pyval) : result dict :=
  match v with
  | PDict d => Ok d
  | _ => Raise (Exn TypeError
           ("argument after ** must be a mapping, not " +:+ py_type_name v))
  end.

(** A call [f(..., kw=v, **kwargs)]: a key of [kwargs] that repeats the
    keyword [kw] written in the call is a [TypeError] of the call itself,
    raised before the callee runs. *)
Definition py_keyword_once (callee kw : string) (kwargs : dict) : result dict :=
  match kwargs !! kw with
  | Some _ =>
      Raise (Exn TypeError
        (callee +:+ "() got multiple values for keyword argument '" +:+ kw +:+ "'"))
  | None => Ok kwargs
  end.

(** The elements that [for r in v] visits.  The keys of a dictionary come in
    the order of the finite map, which is not the insertion order. *)
Fixpoint chars (s : string) : list pyval :=
  match s with
  | EmptyString => []
  | String c s' => PStr (String c EmptyString) :: chars s'
  end.

Definition py_iter (v : pyval) : result (list pyval) :=
  match v with
  | PList l => Ok l
  | PDict d => Ok (PStr <$> (map_to_list d).*1)
  | PStr s => Ok (chars s)
  | _ => Raise (Exn TypeError
           ("'" +:+ py_type_name v +:+ "' object is not iterable"))
  end.

(** [next((r.get("id") for r in entries if r.get("key") == output_key), None)]. *)
Fixpoint next_id (entries : list pyval) (output_key : string) : result pyval :=
  match entries with
  | [] => Ok PNone
  | r :: rest =>
      rbind (py_get r "key") (λ k,
      if py_eq_str k output_key then py_get r "id" else next_id rest output_key)
  end.

(** The result of [get_artifacts] and [get_dataitem]: one entity or a list. *)
Inductive one_or_all (E : Type) :=
| One (e : E)
| All (l : list E).
Arguments One {E} e.
Arguments All {E} l.

(** [{**v}]: the operand must be a mapping. *)
Definition py_dict_unpack (v : pyval) : result dict :=
  match v with
  | PDict d => Ok d
  | _ => Raise (Exn TypeError
           ("'" +:+ py_type_name v +:+ "' object is not a mapping"))
  end.

Section RunEntity.
Context {W : Type} `{env : RunEnv W}.

(** The state of a method call: the object and the world. *)
Abbreviation St := (Run * W)%type.

Definition get_self : M St Run := λ s, (s, Ok (fst s)).

Definition modify_self (f : Run → Run) : M St unit :=
  λ s, ((f (fst s), snd s), Ok tt).

Definition in_world {A} (m : M W A) : M St A :=
  λ s, let (w', x) := m (snd s) in ((fst s, w'), x).

(** The object that [Run.save] sends: [to_dict] and the four keys set
    after it. *)
Definition save_payload (r : Run) : dict :=
  let obj := to_dict true r in
  let obj := <["project" := PStr (project (run_metadata r))]> obj in
  let obj := <["task_id" := spec_attr r "task_id"]> obj in
  let obj := <["task" := spec_attr r "task"]> obj in
  <["local_execution" := spec_attr r "local_execution"]> obj.

(** [Run.save]. *)
Definition Run_save (uuid : pyval) : M St dict :=
  do r <- get_self;
  if run_local r
  then raise (Exn EntityError "Use .export() for local execution.")
  else
    let obj := save_payload r in
    match uuid with
    | PNone =>
        do response <- in_world (create_object obj (api_base_create RUNS));
        match default PNone (response !! "id") with
        | PNone => ret response
        | id_ => modify_self (set_id id_) ;; ret response
        end
    | _ =>
        modify_self (set_id uuid) ;;
        in_world (update_object obj (api_base_update RUNS uuid))
    end.

(** The two halves of [save(self.id)] on a Run that is not local: the
    request that goes to the backend, the update of a Run that has an id and
    the creation of one that has none; and the Run once the backend has
    answered [response], which takes the id of the response when it was
    created and the response has one. *)
Definition save_request (r : Run) : M W dict :=
  match run_id r with
  | PNone => create_object (save_payload r) (api_base_create RUNS)
  | uuid => update_object (save_payload r) (api_base_update RUNS uuid)
  end.

Definition saved (r : Run) (response : dict) : Run :=
  match run_id r, default PNone (response !! "id") with
  | PNone, PNone => r
  | PNone, id_ => set_id id_ r
  | _, _ => r
  end.

(** [Run._set_status]. *)
Definition Run__set_status (status : pyval) : M St unit :=
  match status with
  | PDict d => modify_self (set_status (build_status d))
  | _ => raise (Exn EntityError "Status must be a dictionary.")
  end.

(** [Run._parse_task_string]. *)
Definition Run__parse_task_string (r : Run) : result TaskString :=
  parse_task_string (spec_attr r "task") (spec_attr r "task_id").

(** [Run._get_function]. *)
Definition Run__get_function : M St dict :=
  do r <- get_self;
  do parsed <- lift (Run__parse_task_string r);
  in_world (read_object
    (api_ctx_read (project (run_metadata r)) FUNC
       (function_name parsed) (function_id parsed))).

(** [Run._get_task]. *)
Definition Run__get_task : M St dict :=
  do r <- get_self;
  do parsed <- lift (Run__parse_task_string r);
  in_world (read_object (api_base_read TASK (task_id parsed))).

(** [Run._get_runtime]. *)
Definition Run__get_runtime : M St (Runtime W) :=
  do r <- get_self;
  do parsed <- lift (Run__parse_task_string r);
  lift (build_runtime (function_kind parsed)).

(** [Run.build].  The merged spec is passed as [**new_spec] next to the
    keyword [ignore_validation=True]: a merged spec that is not a mapping,
    or that has the key [ignore_validation], makes the call of [build_spec]
    a [TypeError] before anything is assigned. *)
Definition Run_build (local : bool) : M St unit :=
  do function <- Run__get_function;
  do task <- Run__get_task;
  do runtime <- Run__get_runtime;
  do r <- get_self;
  do new_spec <- in_world (rt_build runtime function task (to_dict false r));
  do kwargs <- lift (py_kwargs new_spec);
  do kwargs <- lift (py_keyword_once "build_spec" "ignore_validation" kwargs);
  modify_self (set_spec (build_spec_ignore_validation kwargs)) ;;
  Run__set_status (PDict {[ "state" := PStr State_PENDING ]}) ;;
  do r' <- get_self;
  Run_save (run_id r') ;;
  ret tt.

(** [Run.run]. *)
Definition Run_run (local : bool) : M St Run :=
  do runtime <- Run__get_runtime;
  do status <-
    try_except_Exception
      (do r <- get_self; in_world (rt_run runtime (to_dict true r)))
      (λ e, ret (PDict (error_status e)));
  Run__set_status status ;;
  do r' <- get_self;
  Run_save (run_id r') ;;
  get_self.

(** [Run.refresh]. *)
Definition Run_refresh : M St dict :=
  do r <- get_self;
  if run_local r
  then raise (Exn EntityError "Cannot refresh local run.")
  else in_world (read_object (api_base_read RUNS (run_id r))).

(** [[lookup(r.get("id")) for r in entries]]. *)
Fixpoint resolve_all {E} (lookup : pyval → M W E) (entries : list pyval)
    : M W (list E) :=
  match entries with
  | [] => ret []
  | r :: rest =>
      do k <- lift (py_get r "id");
      do a <- lookup k;
      do l <- resolve_all lookup rest;
      ret (a :: l)
  end.

(** [Run.get_artifacts]. *)
Definition Run_get_artifacts (output_key : option string)
    : M St (one_or_all Artifact) :=
  do resp <- Run_refresh;
  do st <- lift (py_get_default (PDict resp) "status" (PDict ∅));
  do res <- lift (py_get st "artifacts");
  match res with
  | PNone =>
      raise (Exn EntityError "Run has no result (maybe try when it finishes).")
  | _ =>
      match output_key with
      | Some k =>
          do entries <- lift (py_iter res);
          do key <- lift (next_id entries k);
          match key with
          | PNone =>
              raise (Exn EntityError ("No artifact found with key '" +:+ k +:+ "'."))
          | _ => do a <- in_world (get_artifact_from_key key); ret (One a)
          end
      | None =>
          do entries <- lift (py_iter res);
          do l <- in_world (resolve_all get_artifact_from_key entries);
          ret (All l)
      end
  end.

(** [Run.get_dataitem]. *)
Definition Run_get_dataitem (output_key : option string)
    : M St (one_or_all DataitemEntity) :=
  do resp <- Run_refresh;
  do st <- lift (py_get_default (PDict resp) "status" (PDict ∅));
  do res <- lift (py_get st "dataitems");
  match res with
  | PNone =>
      raise (Exn EntityError "Run has no result (maybe try when it finishes).")
  | _ =>
      match output_key with
      | Some k =>
          do entries <- lift (py_iter res);
          do key <- lift (next_id entries k);
          match key with
          | PNone =>
              raise (Exn EntityError ("No dataitem found with key '" +:+ k +:+ "'."))
          | _ => do a <- in_world (get_dataitem_from_key key); ret (One a)
          end
      | None =>
          do entries <- lift (py_iter res);
          do l <- in_world (resolve_all get_dataitem_from_key entries);
          ret (All l)
      end
  end.

(** [Run.stop]. *)
Definition Run_stop : M St dict :=
  raise (Exn NotImplementedError "").

End RunEntity.

(** *** The vocabulary of the retrieval contract *)

(** Every entry of the list is a dictionary whose [key] is not [k]. *)
Definition no_entry_with_key (k : string) (entries : list pyval) : Prop :=
  Forall (λ x, ∃ d, x = PDict d
                    ∧ py_eq_str (default PNone (d !! "key")) k = false) entries.

(** [lookup] resolves the [id] of each entry, one after the other, from the
    world [w] to the world [w']. *)
Inductive resolved {W E : Type} (lookup : pyval → M W E)
  : list pyval → W → list E → W → Prop :=
| resolved_nil (w : W) : resolved lookup [] w [] w
| resolved_cons (d : dict) (rest : list pyval) (w w1 w2 : W) (a : E) (l : list E) :
    lookup (default PNone (d !! "id")) w = (w1, Ok a) →
    resolved lookup rest w1 l w2 →
    resolved lookup (PDict d :: rest) w (a :: l) w2.

(** What [get_artifacts] and [get_dataitem] do, in the cases of section
    4.4, for a getter [get] that reads the list under [field] of the
    refreshed status and resolves ids with [lookup]: no list; a key whose
    first entry has an id; a key whose first entry has no id, or the id
    [None]; a key that no entry has; no key. *)
Definition retrieval_contract {W : Type} `{RunEnv W} {E : Type}
    (get : option string → M (Run * W) (one_or_all E))
    (field noun : string) (lookup : pyval → M W E) : Prop :=
  ∀ (r : Run) (w w1 : W) (resp st : dict),
    Run_refresh (r, w) = ((r, w1), Ok resp) →
    default (PDict ∅) (resp !! "status") = PDict st →
    (default PNone (st !! field) = PNone →
     ∀ key, get key (r, w)
            = ((r, w1),
               Raise (Exn EntityError
                        "Run has no result (maybe try when it finishes).")))
    ∧ ∀ entries, st !! field = Some (PList entries) →
        (∀ k pre d post v w2 a,
           entries = pre ++ PDict d :: post →
           no_entry_with_key k pre →
           d !! "key" = Some (PStr k) →
           d !! "id" = Some v → v ≠ PNone →
           lookup v w1 = (w2, Ok a) →
           get (Some k) (r, w) = ((r, w2), Ok (One a)))
        ∧ (∀ k pre d post,
             entries = pre ++ PDict d :: post →
             no_entry_with_key k pre →
             d !! "key" = Some (PStr k) →
             default PNone (d !! "id") = PNone →
             get (Some k) (r, w)
             = ((r, w1),
                Raise (Exn EntityError
                         ("No " +:+ noun +:+ " found with key '" +:+ k +:+ "'."))))
        ∧ (∀ k, no_entry_with_key k entries →
             get (Some k) (r, w)
             = ((r, w1),
                Raise (Exn EntityError
                         ("No " +:+ noun +:+ " found with key '" +:+ k +:+ "'."))))
        ∧ (∀ l w2, resolved lookup entries w1 l w2 →
             get None (r, w) = ((r, w2), Ok (All l))).

(** ** The DBT runtime ([dbt.py]) *)

(** The error of [RuntimeDBT.run] on a run that is not pending. *)
Definition not_pending_error : exn :=
  Exn EntityError "Run is not in pending state. Build it again.".

(** [spec.get(field, {}).get("dataitems", [])], as [transform] reads the
    inputs and the outputs of the run. *)
Definition spec_dataitems (spec : pyval) (field : string) : result pyval :=
  rbind (py_get_default spec field (PDict ∅)) (λ d,
  py_get_default d "dataitems" (PList [])).

(** Modelled from the spec: [TaskKinds] of [sdk.entities.task.kinds] is not
    under src/; the task kind of the transform runtime is [transform]
    (section 4.5). *)
Definition TaskKinds_TRANSFORM : string := "transform".

(** A dataitem as the runtime reads it: the attributes [project], [kind],
    [name] and [id]. *)
Record Dataitem := mkDataitem {
  di_project : string;
  di_kind : string;
  di_name : string;
  di_id : string;
}.

(** The parts of dbt's [RunResult] that the runtime reads.  A [datetime] is
    kept as its [isoformat()]. *)
Record datetime := mkDatetime { isoformat : string }.

Record TimingInfo := mkTimingInfo {
  timing_name : string;
  started_at : option datetime;
  completed_at : option datetime;
}.

Record Node := mkNode {
  package_name : string;
  node_name : string;
  relation_name : pyval;
  raw_code : pyval;
  compiled_code : pyval;
}.

Record RunResult := mkRunResult {
  status_value : string;
  node : Node;
  timing : list TimingInfo;
}.

Record dbtRunnerResult := mkDbtRunnerResult { dbt_result : list RunResult }.

(** [ParsedResults]. *)
Record ParsedResults := mkParsedResults {
  pr_name : string;
  pr_path : string;
  pr_raw_code : string;
  pr_compiled_code : string;
  pr_timings : dict;
}.

(** What the runtime calls outside of its module: the environment variables,
    the dataitem store, the file system ([write_text] takes the directory,
    the file name and the text), dbt, and the helpers of
    [sdk.utils.generic_utils].  [py_repr] is [str()] on the values that are
    not strings, [None] or booleans. *)
Class DbtEnv (W : Type) := {
  POSTGRES_HOST : pyval;
  POSTGRES_USER : pyval;
  POSTGRES_PASSWORD : pyval;
  POSTGRES_PORT : pyval;
  POSTGRES_DATABASE : pyval;
  POSTGRES_SCHEMA : pyval;
  DataitemKinds_DBT : string;
  py_repr : pyval → string;
  get_uiid : M W string;
  decode_string : pyval → result string;
  encode_string : string → result string;
  get_dataitem : pyval → pyval → M W Dataitem;
  write_df : Dataitem → string → M W unit;
  new_dataitem :
    pyval → string → string → string → string → string → string → M W Dataitem;
  mkdir : string → M W unit;
  write_text : string → string → string → M W unit;
  chdir : string → M W unit;
  dbt_invoke : pyval → M W dbtRunnerResult;
}.

Section RuntimeDBT.
Context {W : Type} `{denv : DbtEnv W}.

(** [str(v)], also what an f-string prints for [{v}]. *)
Definition py_str (v : pyval) : string :=
  match v with
  | PStr s => s
  | PNone => "None"
  | PBool true => "True"
  | PBool false => "False"
  | _ => py_repr v
  end.

(** [v.replace(old, new)]. *)
Definition py_replace (v : pyval) (old new : string) : result string :=
  match v with
  | PStr s => Ok (PyStr.replace old new s)
  | _ => no_attribute v "replace"
  end.

Definition PROJECT_TEMPLATE (a b : string) : string :=
  "
name: " +:+ dq +:+ a +:+ dq +:+ "
version: " +:+ dq +:+ "1.0.0" +:+ dq +:+ "
config-version: 2
profile: " +:+ dq +:+ "postgres" +:+ dq +:+ "
model-paths: [" +:+ dq +:+ b +:+ dq +:+ "]
models:
".

Definition MODEL_TEMPLATE_UUID (a b c : string) : string :=
  "
models:
  - name: " +:+ a +:+ "
    latest_uuid: " +:+ b +:+ "
    uuids:
        - v: " +:+ c +:+ "
          config:
            materialized: table
".

Definition MODEL_TEMPLATE_VERSION (a b c : string) : string :=
  "
models:
  - name: " +:+ a +:+ "
    latest_version: " +:+ b +:+ "
    versions:
        - v: " +:+ c +:+ "
          config:
            materialized: table
".

Definition PROFILE_TEMPLATE : string :=
  "
postgres:
    outputs:
        dev:
            type: postgres
            host: " +:+ py_str POSTGRES_HOST +:+ "
            user: " +:+ py_str POSTGRES_USER +:+ "
            pass: " +:+ py_str POSTGRES_PASSWORD +:+ "
            port: " +:+ py_str POSTGRES_PORT +:+ "
            dbname: " +:+ py_str POSTGRES_DATABASE +:+ "
            schema: " +:+ py_str POSTGRES_SCHEMA +:+ "
    target: dev
".

(** [self.root_dir] and [self.model_dir]. *)
Definition root_dir : string := "dbt_run".
Definition model_dir : string := "dbt_run/models".
Definition model_dir_name : string := "models".

(** [RuntimeDBT.build]. *)
Definition RuntimeDBT_build (function task run : dict) : M W pyval :=
  do fs <- lift (py_dict_unpack (default PNone (function !! "spec")));
  do ts <- lift (py_dict_unpack (default PNone (task !! "spec")));
  do rs <- lift (py_dict_unpack (default PNone (run !! "spec")));
  ret (PDict (rs ∪ (ts ∪ fs))).

(** [RuntimeDBT.get_allowed_tasks], the class attribute [tasks]. *)
Definition RuntimeDBT_get_allowed_tasks : list string := [TaskKinds_TRANSFORM].

(** [RuntimeDBT.materialize_inputs]. *)
Fixpoint materialize_inputs (inputs : list pyval) (project : pyval) : M W unit :=
  match inputs with
  | [] => ret tt
  | name :: rest =>
      do di <- try_except_Exception (get_dataitem project name)
                 (λ _, raise (Exn RuntimeError
                    ("Dataitem " +:+ py_str name +:+ " not found in project "
                     +:+ py_str project)));
      let target_path :=
        "sql://postgres/" +:+ py_str POSTGRES_DATABASE +:+ "/"
        +:+ py_str POSTGRES_SCHEMA +:+ "/" +:+ py_str name +:+ "_v" +:+ di_id di in
      write_df di target_path ;;
      materialize_inputs rest project
  end.

(** [RuntimeDBT.parse_inputs]. *)
Definition parse_inputs (inputs : pyval) (project : pyval) : M W (list pyval) :=
  match inputs with
  | PList l => materialize_inputs l project ;; ret l
  | _ => raise (Exn RuntimeError "Inputs must be a list of dataitems")
  end.

(** [RuntimeDBT.parse_outputs]. *)
Definition parse_outputs (outputs : pyval) : result string :=
  match outputs with
  | PList l => rbind (py_index l 0) (λ o, Ok (py_str o))
  | _ => Raise (Exn RuntimeError "Outputs must be a list of dataitems")
  end.

(** [RuntimeDBT.generate_dbt_profile_yml]. *)
Definition generate_dbt_profile_yml : M W unit :=
  write_text root_dir "profiles.yml" PROFILE_TEMPLATE.

(** [RuntimeDBT.generate_dbt_project_yml]. *)
Definition generate_dbt_project_yml (project : pyval) : M W unit :=
  do name <- lift (py_replace project "-" "_");
  write_text root_dir "dbt_project.yml"
    (PROJECT_TEMPLATE name model_dir_name).

(** [RuntimeDBT.generate_outputs_conf]. *)
Definition generate_outputs_conf (sql : pyval) (output uuid : string) : M W unit :=
  do sql' <- lift (decode_string sql);
  write_text model_dir (output +:+ ".sql") sql' ;;
  write_text model_dir (output +:+ ".yml")
    (MODEL_TEMPLATE_VERSION output uuid uuid).

(** [RuntimeDBT.generate_inputs_conf]. *)
Fixpoint generate_inputs_conf (inputs : list pyval) (project : pyval) : M W unit :=
  match inputs with
  | [] => ret tt
  | name :: rest =>
      do response <- get_dataitem project name;
      let uuid := di_id response in
      write_text model_dir (py_str name +:+ ".sql")
        (MODEL_TEMPLATE_UUID (py_str name) uuid uuid) ;;
      write_text model_dir (py_str name +:+ "_v" +:+ uuid +:+ ".sql")
        ("SELECT * FROM " +:+ dq +:+ py_str name +:+ "_v" +:+ uuid +:+ dq) ;;
      generate_inputs_conf rest project
  end.

(** [RuntimeDBT.setup]. *)
Definition setup (inputs : list pyval) (output uuid : string)
    (project sql : pyval) : M W unit :=
  mkdir model_dir ;;
  generate_dbt_profile_yml ;;
  generate_dbt_project_yml project ;;
  generate_outputs_conf sql output uuid ;;
  generate_inputs_conf inputs project.

(** [RuntimeDBT.execute]. *)
Definition execute (output : string) : M W dbtRunnerResult :=
  chdir root_dir ;;
  dbt_invoke (PStr "clean") ;;
  do res <- dbt_invoke (PList [PStr "run"; PStr "--select"; PStr output]);
  chdir ".." ;;
  ret res.

(** [RuntimeDBT.validate_results]. *)
Definition validate_results (run_result : dbtRunnerResult)
    (output : string) (project : pyval) : result RunResult :=
  match last (dbt_result run_result) with
  | None => Raise (Exn RuntimeError "No results found.")
  | Some res =>
      if negb (bool_decide (status_value res = "success"))
      then Raise (Exn RuntimeError "Something got wrong during function execution.")
      else
        rbind (py_replace project "-" "_") (λ pname,
        if negb (bool_decide (package_name (node res) = pname))
        then Raise (Exn RuntimeError "Wrong project name.")
        else if negb (bool_decide (node_name (node res) = output))
        then Raise (Exn RuntimeError "Wrong output name.")
        else Ok res)
  end.

(** [RuntimeDBT.get_path]. *)
Definition get_path (res : RunResult) : result string :=
  rbind (py_replace (relation_name (node res)) dq "") (λ components,
  let components := PyStr.join "/" (PyStr.split "." components) in
  Ok ("sql://postgres/" +:+ components)).

(** [RuntimeDBT.get_raw_code]. *)
Definition get_raw_code (res : RunResult) : result string :=
  encode_string (py_str (raw_code (node res))).

(** [RuntimeDBT.get_compiled_code]. *)
Definition get_compiled_code (res : RunResult) : result string :=
  encode_string (py_str (compiled_code (node res))).

(** The loop of [get_timings]: the last [compile] and the last [execute]
    entries. *)
Fixpoint select_timings (entries : list TimingInfo)
    (compile_timing execute_timing : option TimingInfo)
    : option TimingInfo * option TimingInfo :=
  match entries with
  | [] => (compile_timing, execute_timing)
  | entry :: rest =>
      if bool_decide (timing_name entry = "compile")
      then select_timings rest (Some entry) execute_timing
      else if bool_decide (timing_name entry = "execute")
      then select_timings rest compile_timing (Some entry)
      else select_timings rest compile_timing execute_timing
  end.

(** A bare [raise] with no exception being handled. *)
Definition bare_raise {A} : result A :=
  Raise (Exn RuntimeError "No active exception to reraise").

(** [RuntimeDBT.get_timings]. *)
Definition get_timings (res : RunResult) : result dict :=
  match select_timings (timing res) None None with
  | (Some compile_timing, Some execute_timing) =>
      match started_at execute_timing, completed_at execute_timing with
      | Some es, Some ec =>
          match started_at compile_timing, completed_at compile_timing with
          | Some cs, Some cc =>
              Ok {[ "timing" := PDict
                (<["compile" := PDict
                     (<["started_at" := PStr (isoformat cs)]>
                     (<["completed_at" := PStr (isoformat cc)]> ∅))]>
                (<["execute" := PDict
                     (<["started_at" := PStr (isoformat es)]>
                     (<["completed_at" := PStr (isoformat ec)]> ∅))]> ∅)) ]}
          | _, _ => bare_raise
          end
      | _, _ => bare_raise
      end
  | _ => bare_raise
  end.

(** [try: r  except Exception: raise e'] on a computation without effects. *)
Definition reraise_as {A} (r : result A) (e' : exn) : result A :=
  match r with
  | Ok a => Ok a
  | Raise e => if is_Exception e then Raise e' else Raise e
  end.

(** [RuntimeDBT.parse_results]. *)
Definition parse_results (run_result : dbtRunnerResult)
    (output : string) (project : pyval) : result ParsedResults :=
  rbind (validate_results run_result output project) (λ res,
  reraise_as
    (rbind (get_path res) (λ path,
     rbind (get_raw_code res) (λ raw,
     rbind (get_compiled_code res) (λ compiled,
     rbind (get_timings res) (λ timings,
     let name := node_name (node res) in
     Ok (mkParsedResults name path raw compiled timings))))))
    (Exn RuntimeError "Something got wrong during results parsing.")).

(** [RuntimeDBT.create_dataitem]. *)
Definition create_dataitem (res : ParsedResults) (project : pyval)
    (uuid : string) : M W Dataitem :=
  try_except_Exception
    (new_dataitem project (pr_name res) DataitemKinds_DBT (pr_path res)
       uuid (pr_raw_code res) (pr_compiled_code res))
    (λ _, raise (Exn RuntimeError "Something got wrong during dataitem creation.")).

(** [RuntimeDBT.get_dataitem_info]. *)
Definition get_dataitem_info (output : string) (dataitem : Dataitem) : dict :=
  {[ "dataitems" := PList
       [ PDict
           (<["key" := PStr output]>
           (<["kind" := PStr (di_kind dataitem)]>
           (<["id" := PStr ("store://" +:+ di_project dataitem +:+ "/dataitems/"
                            +:+ di_kind dataitem +:+ "/" +:+ di_name dataitem
                            +:+ ":" +:+ di_id dataitem)]> ∅))) ] ]}.

(** [RuntimeDBT.transform]. *)
Definition RuntimeDBT_transform (run : dict) : M W pyval :=
  let project := default PNone (run !! "project") in
  let spec := default PNone (run !! "spec") in
  do inputs_l <- lift (spec_dataitems spec "inputs");
  do inputs <- parse_inputs inputs_l project;
  do outputs_l <- lift (spec_dataitems spec "outputs");
  do output <- lift (parse_outputs outputs_l);
  do uuid <- get_uiid;
  do sql <- lift (py_get spec "sql");
  setup inputs output uuid project sql ;;
  do execution_results <- execute output;
  do parsed_result <- lift (parse_results execution_results output project);
  do dataitem <- create_dataitem parsed_result project uuid;
  ret (PDict (<["state" := PStr State_COMPLETED]>
               (pr_timings parsed_result ∪ get_dataitem_info output dataitem))).

(** [RuntimeDBT.run]. *)
Definition RuntimeDBT_run (run : dict) : M W pyval :=
  do state <- lift (py_get (default PNone (run !! "status")) "state");
  if negb (py_eq_str state State_PENDING)
  then raise not_pending_error
  else
    do task <- lift (py_get (default PNone (run !! "spec")) "task");
    do l <- lift (py_split task ":");
    do kinds <- lift (py_index l 0);
    do action <- lift (py_index (PyStr.split "+" kinds) 1);
    if bool_decide (action = TaskKinds_TRANSFORM)
    then RuntimeDBT_transform run
    else raise (Exn EntityError
                  ("Task " +:+ action +:+ " not allowed for DBT runtime")).

Definition RuntimeDBT : Runtime W :=
  mkRuntime RuntimeDBT_build RuntimeDBT_run RuntimeDBT_get_allowed_tasks.

End RuntimeDBT.

(** ** A small world for the examples

    A backend that answers reads from three stored objects and records what
    is sent to it, a dbt that reports the status the world holds, and a
    registry with the DBT runtime and three runtimes that only raise. *)

Record World0 := mkWorld0 {
  w_function : dict;
  w_task : dict;
  w_run : dict;
  w_dbt_status : string;
  w_sent : list (api * dict);
}.

Definition str0 (v : pyval) : string :=
  match v with PStr s => s | _ => "?" end.

Definition dbt_invoke0 (args : pyval) : M World0 dbtRunnerResult :=
  λ w, (w, Ok (mkDbtRunnerResult
    match args with
    | PList [_; _; PStr output] =>
        [ mkRunResult (w_dbt_status w)
            (mkNode "ns" output (PStr "db.public.t2") (PStr "select 1")
               (PStr "select 1"))
            [ mkTimingInfo "compile" (Some (mkDatetime "2023-09-01T10:00:00"))
                (Some (mkDatetime "2023-09-01T10:00:01"));
              mkTimingInfo "execute" (Some (mkDatetime "2023-09-01T10:00:01"))
                (Some (mkDatetime "2023-09-01T10:00:05")) ] ]
    | _ => []
    end)).

#[global] Instance dbt_env0 : DbtEnv World0 := {|
  POSTGRES_HOST := PStr "localhost";
  POSTGRES_USER := PStr "user";
  POSTGRES_PASSWORD := PStr "secret";
  POSTGRES_PORT := PStr "5432";
  POSTGRES_DATABASE := PStr "db";
  POSTGRES_SCHEMA := PStr "public";
  DataitemKinds_DBT := "dbt";
  py_repr := λ _, "?";
  get_uiid := ret "u1";
  decode_string := λ v, match v with
                        | PStr s => Ok s
                        | _ => Raise (Exn TypeError "a string is required")
                        end;
  encode_string := λ s, Ok s;
  get_dataitem := λ project name,
    ret (mkDataitem (str0 project) "dataitem" (str0 name) "v0");
  write_df := λ _ _, ret tt;
  new_dataitem := λ project name kind path uuid raw compiled,
    ret (mkDataitem (str0 project) kind name uuid);
  mkdir := λ _, ret tt;
  write_text := λ _ _ _, ret tt;
  chdir := λ _, ret tt;
  dbt_invoke := dbt_invoke0;
|}.

(** Runtimes whose [run] raises: an exception with an empty message, an
    exception with a message, and a [KeyboardInterrupt]. *)
Definition raising_runtime (e : exn) : Runtime World0 :=
  mkRuntime (λ _ _ run, ret (default PNone (run !! "spec"))) (λ _, raise e) [].

Definition build_runtime0 (kind : string) : result (Runtime World0) :=
  if bool_decide (kind = "transform") then Ok RuntimeDBT
  else if bool_decide (kind = "silent")
  then Ok (raising_runtime (Exn (OtherException "Exception") ""))
  else if bool_decide (kind = "failing")
  then Ok (raising_runtime (Exn RuntimeError "engine failed"))
  else if bool_decide (kind = "interrupted")
  then Ok (raising_runtime (Exn (BaseExceptionOnly "KeyboardInterrupt") ""))
  else Raise (Exn (OtherException "UnknownRuntimeError")
                ("no runtime for " +:+ kind)).

Definition to_dict0 (include_all_non_private : bool) (r : Run) : dict :=
  <["id" := run_id r]>
  (<["kind" := PStr (run_kind r)]>
  (<["project" := PStr (project (run_metadata r))]>
  (<["metadata" := PDict (<["project" := PStr (project (run_metadata r))]>
                           (metadata_rest (run_metadata r)))]>
  (<["spec" := PDict (run_spec r)]>
  (<["status" := PDict (run_status r)]> ∅))))).

Definition send0 (obj : dict) (a : api) : M World0 dict :=
  λ w, (mkWorld0 (w_function w) (w_task w) obj (w_dbt_status w)
          (w_sent w ++ [(a, obj)]), Ok obj).

Definition read_object0 (a : api) : M World0 dict :=
  λ w, (w, match a with
           | api_ctx_read _ FUNC _ _ => Ok (w_function w)
           | api_base_read TASK _ => Ok (w_task w)
           | api_base_read RUNS _ => Ok (w_run w)
           | _ => Raise (Exn (OtherException "BackendError") "not found")
           end).

Definition lookup0 (key : pyval) : M World0 string :=
  match key with
  | PStr s => ret s
  | _ => raise (Exn (OtherException "BackendError") "not found")
  end.

#[global] Instance run_env0 : RunEnv World0 := {|
  Artifact := string;
  DataitemEntity := string;
  to_dict := to_dict0;
  create_object := send0;
  update_object := send0;
  read_object := read_object0;
  build_runtime := build_runtime0;
  get_artifact_from_key := lookup0;
  get_dataitem_from_key := lookup0;
|}.

Definition function0 : dict :=
  {[ "spec" := PDict (<["sql" := PStr "select 1"]> (<["source" := PStr "f"]> ∅)) ]}.

Definition task0 : dict :=
  {[ "spec" := PDict
       (<["resources" := PStr "small"]>
       (<["source" := PStr "t"]>
       (<["inputs" := PDict {[ "dataitems" := PList [PStr "t0"] ]}]> ∅))) ]}.

Definition world0 : World0 := mkWorld0 function0 task0 ∅ "success" [].

(** The Run of the scenario of section 8, with the task string
    [transform+transform://ns/myfn:f1]. *)
Definition spec0 (task : string) : dict :=
  <["task" := PStr task]>
  (<["task_id" := PStr "t1"]>
  (<["inputs" := PDict {[ "dataitems" := PList [PStr "t1"] ]}]>
  (<["outputs" := PDict {[ "dataitems" := PList [PStr "t2"] ]}]> ∅))).

Definition run0 (task : string) (status : dict) (local : bool) : Run :=
  mkRun (PStr "r1") "run" (mkRunMetadata "ns" ∅) (spec0 task) status local.

Definition scenario_task : string := "transform+transform://ns/myfn:f1".

(** The dictionary of the scenario's Run once built, in state [PENDING],
    with the [sql] of its function merged into its spec; and the same with
    another task kind or another state. *)
Definition run_dict0 (task state : string) : dict :=
  to_dict0 true
    (mkRun (PStr "r1") "run" (mkRunMetadata "ns" ∅)
       (<["sql" := PStr "select 1"]> (spec0 task))
       {[ "state" := PStr state ]} false).

(** The world of the retrieval example of section 8: the backend holds a
    status with the result list [[{key: "out", id: "a1"}]]. *)
Definition world_out : World0 :=
  mkWorld0 function0 task0
    {[ "status" := PDict {[ "artifacts" :=
         PList [ PDict (<["key" := PStr "out"]> (<["id" := PStr "a1"]> ∅)) ] ]} ]}
    "success" [].

(** ** Building a Run from a dictionary ([entity.py], [_parse_dict] and
    [from_dict]) *)

(** The builders of [sdk.entities.builders] and [sdk.utils.generic_utils]
    that [_parse_dict] calls, and the [local] flag of the project context
    that [from_dict] reads.  [build_spec] is the validating builder; the
    status is built by [build_status] as above. *)
Class RunBuilders (W : Type) := {
  build_uuid : pyval → M W pyval;
  build_kind : pyval → M W string;
  build_metadata : dict → M W RunMetadata;
  build_spec : string → dict → M W dict;
  context_local : RunMetadata → M W bool;
}.

(** The dictionary that [_parse_dict] returns, by its keys. *)
Record ParsedDict := mkParsedDict {
  pd_uuid : pyval;
  pd_kind : string;
  pd_metadata : RunMetadata;
  pd_spec : dict;
  pd_status : dict;
  pd_project : pyval;
  pd_task_id : pyval;
  pd_task : pyval;
}.

Definition parsed_dict_keys : list string :=
  ["uuid"; "kind"; "metadata"; "spec"; "status"; "project"; "task_id"; "task"].

(** The parameters of [Run.__init__] after [self]. *)
Definition Run_init_parameters : list string :=
  ["uuid"; "kind"; "metadata"; "spec"; "status"; "local"].

(** The first keyword of a call that is not a parameter of the callee. *)
Definition unexpected_keyword (parameters keywords : list string) : option string :=
  head (filter (λ k, k ∉ parameters) keywords).

Definition is_None (v : pyval) : bool :=
  match v with PNone => true | _ => false end.

(** [v if v is not None else dflt]. *)
Definition if_not_None (v dflt : pyval) : pyval :=
  match v with PNone => dflt | _ => v end.

Section FromDict.
Context {W : Type} `{builders : RunBuilders W}.

(** [Run._parse_dict]. *)
Definition Run__parse_dict (obj : dict) : M W ParsedDict :=
  let project := default PNone (obj !! "project") in
  let task_id := default PNone (obj !! "task_id") in
  let task := default PNone (obj !! "task") in
  if is_None project || is_None task_id || is_None task
  then raise (Exn EntityError "Project, task or task_id are not specified.")
  else
    do uuid <- build_uuid (default PNone (obj !! "id"));
    do kind <- build_kind (default PNone (obj !! "kind"));
    do metadata_kwargs <-
      lift (py_kwargs (if_not_None (default PNone (obj !! "metadata"))
                         (PDict {[ "project" := project ]})));
    do metadata <- build_metadata metadata_kwargs;
    do spec_kwargs <-
      lift (py_kwargs (if_not_None (default PNone (obj !! "spec"))
                         (PDict (<["task" := task]>
                                (<["task_id" := task_id]> ∅)))));
    do spec <- build_spec kind spec_kwargs;
    do status_kwargs <-
      lift (py_kwargs (if_not_None (default PNone (obj !! "status")) (PDict ∅)));
    ret (mkParsedDict uuid kind metadata spec (build_status status_kwargs)
           project task_id task).

(** [Run.from_dict]: the call of [cls] with [**parsed_dict] binds the keys of the parsed
    dictionary to the parameters of [Run.__init__]; a key that is not a
    parameter is a [TypeError], raised before the body runs. *)
Definition Run_from_dict (obj : dict) : M W Run :=
  do parsed <- Run__parse_dict obj;
  match unexpected_keyword Run_init_parameters parsed_dict_keys with
  | Some k =>
      raise (Exn TypeError
        ("Run.__init__() got an unexpected keyword argument '" +:+ k +:+ "'"))
  | None =>
      do local <- context_local (pd_metadata parsed);
      ret (mkRun (pd_uuid parsed) (pd_kind parsed) (pd_metadata parsed)
             (pd_spec parsed) (pd_status parsed) local)
  end.

(** [run_from_dict]. *)
Definition run_from_dict (obj : dict) : M W Run := Run_from_dict obj.

End FromDict.

(** ** The vocabulary of the further properties *)

(** A method that leaves the object as it is, whatever it returns. *)
Definition keeps_self {W A : Type} (m : M (Run * W) A) : Prop :=
  ∀ r w s x, m (r, w) = (s, x) → s.1 = r.

(** [materialize_inputs] went through the inputs: each dataitem was found
    and written, from the world [w] to the world [w']. *)
Inductive materialized {W : Type} `{DbtEnv W} (project : pyval)
  : list pyval → W → W → Prop :=
| materialized_nil (w : W) : materialized project [] w w
| materialized_cons (name : pyval) (rest : list pyval) (di : Dataitem)
    (w w1 w2 w3 : W) :
    get_dataitem project name w = (w1, Ok di) →
    write_df di
      ("sql://postgres/" +:+ py_str POSTGRES_DATABASE +:+ "/"
       +:+ py_str POSTGRES_SCHEMA +:+ "/" +:+ py_str name +:+ "_v" +:+ di_id di)
      w1 = (w2, Ok tt) →
    materialized project rest w2 w3 →
    materialized project (name :: rest) w w3.

(** ** More worlds for the examples *)

(** The world of the examples with another backend: [create] and [update]
    answer the two calls of [save]. *)
Definition run_env1 (create update : dict → api → M World0 dict) : RunEnv World0 := {|
  Artifact := string;
  DataitemEntity := string;
  to_dict := to_dict0;
  create_object := create;
  update_object := update;
  read_object := read_object0;
  build_runtime := build_runtime0;
  get_artifact_from_key := lookup0;
  get_dataitem_from_key := lookup0;
|}.

(** A backend that is down, and one that gives new objects the id [b1]. *)
Definition backend_down (obj : dict) (a : api) : M World0 dict :=
  raise (Exn (OtherException "BackendError") "connection refused").

Definition backend_new_id (obj : dict) (a : api) : M World0 dict :=
  λ w, (mkWorld0 (w_function w) (w_task w) obj (w_dbt_status w)
          (w_sent w ++ [(a, obj)]), Ok (<["id" := PStr "b1"]> obj)).

(** A dataitem store in which only the dataitem [t1] exists. *)
Definition dbt_env1 : DbtEnv World0 := {|
  POSTGRES_HOST := PStr "localhost";
  POSTGRES_USER := PStr "user";
  POSTGRES_PASSWORD := PStr "secret";
  POSTGRES_PORT := PStr "5432";
  POSTGRES_DATABASE := PStr "db";
  POSTGRES_SCHEMA := PStr "public";
  DataitemKinds_DBT := "dbt";
  py_repr := λ _, "?";
  get_uiid := ret "u1";
  decode_string := λ v, match v with
                        | PStr s => Ok s
                        | _ => Raise (Exn TypeError "a string is required")
                        end;
  encode_string := λ s, Ok s;
  get_dataitem := λ project name,
    if py_eq_str name "t1"
    then ret (mkDataitem (str0 project) "dataitem" (str0 name) "v0")
    else raise (Exn (OtherException "BackendError") "not found");
  write_df := λ di path w,
    (mkWorld0 (w_function w) (w_task w) (w_run w) (w_dbt_status w)
       (w_sent w ++ [(api_base_create RUNS, {[ "written" := PStr path ]})]),
     Ok tt);
  new_dataitem := λ project name kind path uuid raw compiled,
    ret (mkDataitem (str0 project) kind name uuid);
  mkdir := λ _, ret tt;
  write_text := λ _ _ _, ret tt;
  chdir := λ _, ret tt;
  dbt_invoke := dbt_invoke0;
|}.

(** Builders that take what they are given. *)
Definition builders0 : RunBuilders World0 := {|
  build_uuid := λ v, ret (if_not_None v (PStr "generated"));
  build_kind := λ v, ret (str0 (if_not_None v (PStr "run")));
  build_metadata := λ d, ret (mkRunMetadata (str0 (default PNone (d !! "project"))) d);
  build_spec := λ _ d, ret d;
  context_local := λ _, ret false;
|}.

(** A dbt result with two [compile] entries, the first one unfinished. *)
Definition result_two_compiles : RunResult :=
  mkRunResult "success"
    (mkNode "my_project" "t2"
       (PStr (dq +:+ "db" +:+ dq +:+ "." +:+ dq +:+ "public" +:+ dq +:+ "."
              +:+ dq +:+ "t2" +:+ dq))
       (PStr "select 1") (PStr "select 1"))
    [ mkTimingInfo "compile" (Some (mkDatetime "2023-09-01T09:00:00")) None;
      mkTimingInfo "execute" (Some (mkDatetime "2023-09-01T10:00:01"))
        (Some (mkDatetime "2023-09-01T10:00:05"));
      mkTimingInfo "compile" (Some (mkDatetime "2023-09-01T10:00:00"))
        (Some (mkDatetime "2023-09-01T10:00:01")) ].

(** A runtime whose [run] returns [v], and a registry that gives one
    runtime for every kind. *)
Definition returning_runtime (v : pyval) : Runtime World0 :=
  mkRuntime (λ _ _ run, ret (default PNone (run !! "spec"))) (λ _, ret v) [].

Definition run_env2 (rt : Runtime World0) : RunEnv World0 := {|
  Artifact := string;
  DataitemEntity := string;
  to_dict := to_dict0;
  create_object := send0;
  update_object := send0;
  read_object := read_object0;
  build_runtime := λ _, Ok rt;
  get_artifact_from_key := lookup0;
  get_dataitem_from_key := lookup0;
|}.

(** A backend whose status lists two artifacts with the key [out], the
    first of them without an id. *)
Definition world_two_entries : World0 :=
  mkWorld0 function0 task0
    {[ "status" := PDict {[ "artifacts" :=
         PList [ PDict {[ "key" := PStr "out" ]};
                 PDict (<["key" := PStr "out"]> (<["id" := PStr "a1"]> ∅)) ] ]} ]}
    "success" [].

(** The dictionary of the scenario's Run as a backend gives it, with the
    mandatory fields at the top and a spec. *)
Definition backend_run0 : dict :=
  <["project" := PStr "ns"]>
  (<["task_id" := PStr "t1"]>
  (<["task" := PStr scenario_task]>
  (<["id" := PStr "r1"]>
  (<["spec" := PDict (spec0 scenario_task)]> ∅)))).

(** A run dictionary with an input and no output. *)
Definition run_dict_no_outputs : dict :=
  <["project" := PStr "ns"]>
  {[ "spec" := PDict {[ "inputs" := PDict {[ "dataitems" := PList [PStr "t1"] ]} ]} ]}.

(** A dbt that is interrupted from the keyboard while it runs. *)
Definition dbt_env_interrupted : DbtEnv World0 := {|
  POSTGRES_HOST := PStr "localhost";
  POSTGRES_USER := PStr "user";
  POSTGRES_PASSWORD := PStr "secret";
  POSTGRES_PORT := PStr "5432";
  POSTGRES_DATABASE := PStr "db";
  POSTGRES_SCHEMA := PStr "public";
  DataitemKinds_DBT := "dbt";
  py_repr := λ _, "?";
  get_uiid := ret "u1";
  decode_string := λ v, match v with
                        | PStr s => Ok s
                        | _ => Raise (Exn TypeError "a string is required")
                        end;
  encode_string := λ s, Ok s;
  get_dataitem := λ project name,
    ret (mkDataitem (str0 project) "dataitem" (str0 name) "v0");
  write_df := λ _ _, ret tt;
  new_dataitem := λ project name kind path uuid raw compiled,
    ret (mkDataitem (str0 project) kind name uuid);
  mkdir := λ _, ret tt;
  write_text := λ _ _ _, ret tt;
  chdir := λ _, ret tt;
  dbt_invoke := λ _, raise (Exn (BaseExceptionOnly "KeyboardInterrupt") "");
|}.




(* ===================================================================== *)
(** * Part II: properties                                                  *)
(* ===================================================================== *)

(** ** Facts about [split], [join] and [contains] *)

Section PyStrFacts.
Import PyStr.

Lemma char_eqb_eq a b : char_eqb a b = true ↔ a = b.
Proof. apply Ascii.eqb_eq. Qed.

Lemma char_eqb_refl a : char_eqb a a = true.
Proof. by apply char_eqb_eq. Qed.

Lemma char_eqb_neq a b : char_eqb a b = false ↔ a ≠ b.
Proof. apply Ascii.eqb_neq. Qed.

Lemma append_nil (b : string) : "" +:+ b = b.
Proof. reflexivity. Qed.

Lemma append_cons x (a b : string) : String x a +:+ b = String x (a +:+ b).
Proof. reflexivity. Qed.

Lemma append_assoc (a b c : string) : (a +:+ b) +:+ c = a +:+ b +:+ c.
Proof.
  induction a as [|x a IH]; [done|]. by rewrite !append_cons, IH.
Qed.

Lemma append_empty_r (a : string) : a +:+ "" = a.
Proof. induction a as [|x a IH]; [done|]. by rewrite append_cons, IH. Qed.

Lemma count_char_app c (a b : string) :
  count_char c (a +:+ b) = count_char c a + count_char c b.
Proof.
  induction a as [|x a IH]; [done|].
  rewrite append_cons. simpl. rewrite IH. lia.
Qed.

Lemma count_char_cons_zero c x (s : string) :
  count_char c (String x s) = 0 → x ≠ c ∧ count_char c s = 0.
Proof.
  cbn [count_char]. destruct (char_eqb c x) eqn:E; [lia|].
  intros H. split; [|lia]. intros ->. by rewrite char_eqb_refl in E.
Qed.

Lemma drop_length_app (a b : string) : drop (String.length a) (a +:+ b) = b.
Proof. induction a as [|x a IH]; [done|]. rewrite append_cons. apply IH. Qed.

Lemma length_drop k (s : string) : String.length (drop k s) ≤ String.length s.
Proof.
  revert k. induction s as [|x s IH]; intros [|k]; simpl; try lia.
  specialize (IH k). lia.
Qed.

Lemma prefix_app (a b : string) : String.prefix a (a +:+ b) = true.
Proof.
  induction a as [|x a IH]; [by destruct b|].
  rewrite append_cons. simpl.
  destruct (ascii_dec x x); [done|congruence].
Qed.

Lemma prefix_drop (a s : string) :
  String.prefix a s = true → s = a +:+ drop (String.length a) s.
Proof.
  revert s. induction a as [|x a IH]; intros s H; [done|].
  destruct s as [|y s]; [done|]. simpl in H.
  destruct (ascii_dec x y) as [->|]; [|done].
  rewrite append_cons. simpl. f_equal. by apply IH.
Qed.

Lemma prefix_first_char c (sep s : string) x :
  x ≠ c → String.prefix (String c sep) (String x s) = false.
Proof. intros Hne. simpl. destruct (ascii_dec c x); congruence. Qed.

(** [split] on the cases that tell implementations apart: empty pieces,
    a separator at either end, and separators that touch or overlap. *)
Example split_examples :
  split ":" "a::b" = ["a"; ""; "b"]
  ∧ split "+" "" = [""]
  ∧ split "://" ":///" = [""; "/"]
  ∧ split "://" "a:/://b" = ["a:/"; "b"]
  ∧ split "://" ":://" = [":"; ""]
  ∧ split "://" "://://" = [""; ""; ""]
  ∧ split "/" "p/n:id/" = ["p"; "n:id"; ""]
  ∧ replace "-" "_" "my-project-1" = "my_project_1".
Proof. repeat split. Qed.

(** Passing over [k] characters is starting again [k] characters later. *)
Lemma split_go_skip sep k s : split_go sep k s = split_go sep 0 (drop k s).
Proof. revert k. induction s as [|x s IH]; intros [|k]; simpl; auto. Qed.

Lemma cons_head_nonempty c l : cons_head c l ≠ [].
Proof. by destruct l. Qed.

Lemma split_go_nonempty sep k s : split_go sep k s ≠ [].
Proof.
  revert k. induction s as [|x s IH]; intros k; [done|].
  destruct k as [|k]; cbn [split_go]; [|apply IH].
  destruct (String.prefix sep (String x s)); [done|apply cons_head_nonempty].
Qed.

Lemma join_cons sep x l : l ≠ [] → join sep (x :: l) = x +:+ sep +:+ join sep l.
Proof. by destruct l. Qed.

Lemma join_cons_head sep c l : join sep (cons_head c l) = String c (join sep l).
Proof. destruct l as [|x [|y l]]; done. Qed.

Lemma split_go_match sep x s :
  String.prefix sep (String x s) = true →
  split_go sep 0 (String x s)
  = "" :: split_go sep 0 (drop (String.length sep - 1) s).
Proof. intros H. cbn [split_go]. rewrite H. by rewrite split_go_skip. Qed.

Lemma split_go_nomatch sep x s :
  String.prefix sep (String x s) = false →
  split_go sep 0 (String x s) = cons_head x (split_go sep 0 s).
Proof. intros H. cbn [split_go]. by rewrite H. Qed.

(** Joining the pieces with the separator gives the string back. *)
Lemma join_split sep s : sep ≠ "" → join sep (split sep s) = s.
Proof.
  intros Hsep. unfold split.
  remember (String.length s) as n eqn:Hn.
  assert (Hle : String.length s ≤ n) by lia. clear Hn.
  revert s Hle. induction n as [|n IH]; intros s Hle.
  { destruct s; [done|simpl in Hle; lia]. }
  destruct s as [|x s]; [done|]. simpl in Hle.
  destruct (String.prefix sep (String x s)) eqn:Hp.
  - rewrite split_go_match by done.
    rewrite join_cons by apply split_go_nonempty.
    rewrite IH by (pose proof (length_drop (String.length sep - 1) s); lia).
    rewrite append_nil. symmetry. rewrite (prefix_drop _ _ Hp) at 1.
    destruct sep as [|c sep]; [done|]. simpl. by rewrite Nat.sub_0_r.
  - rewrite split_go_nomatch by done. rewrite join_cons_head.
    f_equal. apply IH. lia.
Qed.

(** *** A separator of one character *)

Lemma split_char_cons c x s :
  split (String c "") (String x s)
  = if char_eqb c x then "" :: split (String c "") s
    else cons_head x (split (String c "") s).
Proof.
  unfold split. cbn [split_go String.prefix String.length].
  destruct (ascii_dec c x) as [->|Hne].
  - rewrite char_eqb_refl. by destruct s.
  - by apply char_eqb_neq in Hne as ->.
Qed.

Lemma split_char_pieces c s :
  Forall (λ x, count_char c x = 0) (split (String c "") s).
Proof.
  induction s as [|x s IH]; [by repeat constructor|].
  rewrite split_char_cons. destruct (char_eqb c x) eqn:E.
  - by constructor.
  - destruct IH as [|y l Hy Hl]; repeat constructor; simpl; rewrite ?E; done.
Qed.

Lemma split_char_absent c s :
  count_char c s = 0 → split (String c "") s = [s].
Proof.
  induction s as [|x s IH]; intros H; [done|].
  rewrite split_char_cons. simpl in H.
  destruct (char_eqb c x); [lia|]. by rewrite IH.
Qed.

Lemma split_char_app c a b :
  count_char c a = 0 →
  split (String c "") (a +:+ String c "" +:+ b) = a :: split (String c "") b.
Proof.
  induction a as [|x a IH]; intros H.
  - rewrite append_nil, append_cons, append_nil, split_char_cons.
    by rewrite char_eqb_refl.
  - rewrite append_cons, split_char_cons. simpl in H.
    destruct (char_eqb c x); [lia|]. by rewrite IH.
Qed.

(** *** Any separator, looked at through its first character *)

Lemma split_first_char_app c sep a b :
  count_char c a = 0 →
  split (String c sep) (a +:+ String c sep +:+ b)
  = a :: split (String c sep) b.
Proof.
  unfold split. induction a as [|x a IH]; intros H.
  - rewrite append_nil, append_cons. rewrite split_go_match.
    + simpl. by rewrite Nat.sub_0_r, drop_length_app.
    + apply (prefix_app (String c sep) b).
  - simpl in H. destruct (char_eqb c x) eqn:E; [lia|].
    rewrite append_cons, split_go_nomatch.
    + by rewrite IH.
    + apply prefix_first_char. intros ->. by rewrite char_eqb_refl in E.
Qed.

Lemma split_absent sep s : contains sep s = false → split sep s = [s].
Proof.
  unfold split. induction s as [|x s IH]; intros H; [done|].
  cbn [contains] in H. apply orb_false_iff in H as [Hp Hc].
  rewrite split_go_nomatch by done. by rewrite IH.
Qed.

Lemma contains_first_char_app c sep a b :
  count_char c a = 0 →
  contains (String c sep) (a +:+ b) = contains (String c sep) b.
Proof.
  induction a as [|x a IH]; intros H; [done|].
  simpl in H. destruct (char_eqb c x) eqn:E; [lia|].
  rewrite append_cons. cbn [contains]. rewrite prefix_first_char.
  - by rewrite IH.
  - intros ->. by rewrite char_eqb_refl in E.
Qed.

Lemma contains_first_char_absent c sep a :
  count_char c a = 0 → contains (String c sep) a = false.
Proof.
  intros H. rewrite <- (append_empty_r a).
  by rewrite contains_first_char_app.
Qed.

Lemma contains_prefix sub s : String.prefix sub s = true → contains sub s = true.
Proof. intros H. destruct s; cbn [contains]; by rewrite H. Qed.

Lemma contains_app_intro sub a b : contains sub (a +:+ sub +:+ b) = true.
Proof.
  induction a as [|x a IH].
  - rewrite append_nil. apply contains_prefix, prefix_app.
  - rewrite append_cons. cbn [contains]. rewrite IH. apply orb_true_r.
Qed.

(** *** The separator [://] *)


(** A string that is not empty and does not begin with [://] does not
    begin with it either when something that does not begin with [/] is
    appended. *)
Lemma prefix_scheme_app (u v : string) :
  u ≠ "" → String.prefix "://" u = false → String.prefix "/" v = false →
  String.prefix "://" (u +:+ v) = false.
Proof.
  assert (Hslash : ∀ s t, String.prefix "/" t = false →
                          String.prefix s ("" +:+ t) = false ∨ s = ""
                          ∨ ∃ c s', s = String c s' ∧ c ≠ "/"%char).
  { intros s t Ht. destruct s as [|c s]; [by right; left|].
    destruct (ascii_dec c "/") as [->|Hc]; [|right; right; eauto].
    left. rewrite append_nil. destruct t as [|c' t]; [done|].
    cbn [String.prefix] in Ht |- *.
    destruct (ascii_dec "/" c'); [by destruct t|done]. }
  intros Hu H Hv.
  destruct u as [|x u]; [done|]. rewrite append_cons.
  cbn [String.prefix] in H |- *.
  destruct (ascii_dec ":" x) as [<-|]; [|done].
  destruct u as [|y u].
  { by destruct (Hslash "//" v Hv) as [?|[?|(? & ? & [= <- _] & ?)]]. }
  rewrite append_cons. cbn [String.prefix] in H |- *.
  destruct (ascii_dec "/" y) as [<-|]; [|done].
  destruct u as [|z u].
  { by destruct (Hslash "/" v Hv) as [?|[?|(? & ? & [= <- _] & ?)]]. }
  rewrite append_cons. cbn [String.prefix] in H |- *.
  destruct (ascii_dec "/" z); [by destruct u|done].
Qed.

Lemma contains_scheme_app (a v : string) :
  contains "://" a = false → String.prefix "/" v = false →
  contains "://" (a +:+ v) = contains "://" v.
Proof.
  induction a as [|x a IH]; intros H Hv; [done|].
  cbn [contains] in H. apply orb_false_iff in H as [Hp Hc].
  rewrite append_cons. cbn [contains].
  change (String x (a +:+ v)) with (String x a +:+ v).
  rewrite prefix_scheme_app by done. by rewrite IH.
Qed.

(** The scan for [://] passes over a piece that does not contain it. *)
Lemma split_scheme_app (a b : string) :
  contains "://" a = false →
  split "://" (a +:+ "://" +:+ b) = a :: split "://" b.
Proof.
  unfold split. induction a as [|x a IH]; intros H.
  - rewrite append_nil. change ("://" +:+ b) with (String ":" ("//" +:+ b)).
    rewrite split_go_match by apply (prefix_app "://" b).
    change (String.length "://" - 1) with (String.length "//").
    by rewrite drop_length_app.
  - cbn [contains] in H. apply orb_false_iff in H as [Hp Hc].
    rewrite append_cons, split_go_nomatch.
    + by rewrite IH.
    + change (String x (a +:+ "://" +:+ b)) with (String x a +:+ ("://" +:+ b)).
      by apply prefix_scheme_app.
Qed.



(** [://] has two [/]. *)
Lemma contains_scheme_one_slash (s : string) :
  count_char "/" s ≤ 1 → contains "://" s = false.
Proof.
  induction s as [|x s IH]; intros H; [done|].
  cbn [contains]. apply orb_false_iff. split.
  - destruct (String.prefix "://" (String x s)) eqn:E; [|done].
    rewrite (prefix_drop _ _ E), count_char_app in H. simpl in H. lia.
  - apply IH. cbn [count_char] in H. lia.
Qed.



End PyStrFacts.

(** ** The task string *)

Section TaskStringFacts.
Import PyStr.


Lemma unpack2_Ok {A} (l : list A) a b : unpack2 l = Ok (a, b) → l = [a; b].
Proof. destruct l as [|x [|y [|z l]]]; simpl; intros H; by simplify_eq. Qed.




(** A string that is parsed has the accepted shape, with the parsed fields
    as its parts. *)
Lemma parse_task_string_Ok_shape s tid ts :
  parse_task_string (PStr s) tid = Ok ts →
  ∃ p rest,
    s = encode_task_string (function_kind ts) (task_kind ts) p
          (function_name ts) (function_id ts) +:+ rest
    ∧ no_char "+" (function_kind ts) ∧ no_char "+" (task_kind ts)
    ∧ no_char "/" p ∧ no_char "/" (function_name ts)
    ∧ no_char "/" (function_id ts)
    ∧ no_char ":" (function_name ts) ∧ no_char ":" (function_id ts)
    ∧ (rest = "" ∨ ∃ r, rest = "/" +:+ r)
    ∧ task_id ts = tid.
Proof.
  unfold parse_task_string. cbn [py_split rbind].
  destruct (unpack2 (split "://" s)) as [[kinds func]|e1] eqn:E1;
    cbn [rbind]; [|done].
  destruct (unpack2 (split "+" kinds)) as [[k1 k2]|e2] eqn:E2;
    cbn [rbind]; [|done].
  destruct (py_index (split "/" func) 1) as [seg|e3] eqn:E3;
    cbn [rbind]; [|done].
  destruct (unpack2 (split ":" seg)) as [[n i]|e4] eqn:E4;
    cbn [rbind]; [|done].
  intros [= <-]. cbn.
  apply unpack2_Ok in E1, E2, E4.
  pose proof (join_split "://" s ltac:(done)) as J1. rewrite E1 in J1.
  pose proof (join_split "+" kinds ltac:(done)) as J2. rewrite E2 in J2.
  pose proof (join_split ":" seg ltac:(done)) as J4. rewrite E4 in J4.
  pose proof (join_split "/" func ltac:(done)) as J3.
  pose proof (split_char_pieces "+" kinds) as P2. rewrite E2 in P2.
  pose proof (split_char_pieces ":" seg) as P4. rewrite E4 in P4.
  pose proof (split_char_pieces "/" func) as P3.
  unfold py_index in E3.
  destruct (split "/" func) as [|p [|seg' l]] eqn:E3'; try done.
  cbn in E3. injection E3 as ->.
  apply Forall_cons in P2 as [Hk1 P2]. apply Forall_cons in P2 as [Hk2 _].
  apply Forall_cons in P4 as [Hn P4]. apply Forall_cons in P4 as [Hi _].
  apply Forall_cons in P3 as [Hp P3]. apply Forall_cons in P3 as [Hseg _].
  cbn [join String.concat] in J1, J2, J4.
  rewrite <- J4 in Hseg. rewrite !count_char_app in Hseg.
  exists p, (match l with [] => "" | _ => "/" +:+ join "/" l end).
  repeat split; try done; try (unfold no_char; lia).
  - unfold encode_task_string. rewrite <- J1, <- J2, <- J3.
    rewrite !append_assoc. do 4 f_equal.
    rewrite join_cons by done. do 2 f_equal.
    destruct l as [|y l].
    + cbn [join String.concat]. rewrite <- J4.
      by rewrite ?append_assoc, append_empty_r.
    + rewrite join_cons by done. rewrite <- J4. by rewrite ?append_assoc.
  - destruct l; [by left|right; eauto].
Qed.


(** A string of the accepted shape is parsed, to the fields it is made
    of. *)
Lemma parse_task_string_accepts (k1 k2 p n i rest : string) (tid : pyval) :
  no_char "+" k1 → no_char "+" k2 →
  no_char "/" p → no_char "/" n → no_char "/" i →
  no_char ":" n → no_char ":" i →
  (rest = "" ∨ ∃ r, rest = "/" +:+ r) →
  contains "://" k1 = false → contains "://" k2 = false →
  contains "://" (p +:+ "/" +:+ n +:+ ":" +:+ i +:+ rest) = false →
  parse_task_string (PStr (encode_task_string k1 k2 p n i +:+ rest)) tid
  = Ok (mkTaskString k1 k2 n i tid).
Proof.
  unfold no_char. intros Hk1 Hk2 Hp Hn Hi Hnc Hic Hrest Hc1 Hc2 Hfunc.
  assert (Hkinds : contains "://" (k1 +:+ "+" +:+ k2) = false).
  { rewrite contains_scheme_app by done. cbn [contains String.prefix].
    by destruct (ascii_dec ":" "+"). }
  unfold parse_task_string, encode_task_string. cbn [py_split rbind].
  replace ((k1 +:+ "+" +:+ k2 +:+ "://" +:+ p +:+ "/" +:+ n +:+ ":" +:+ i)
           +:+ rest)
    with ((k1 +:+ "+" +:+ k2) +:+ "://"
          +:+ (p +:+ "/" +:+ n +:+ ":" +:+ i +:+ rest))
    by (by rewrite !append_assoc).
  rewrite split_scheme_app by done.
  rewrite (split_absent "://") by done. cbn [unpack2 rbind].
  rewrite (split_char_app "+" k1 k2), (split_char_absent "+" k2) by done.
  cbn [unpack2 rbind].
  rewrite (split_char_app "/" p) by done.
  assert (∃ l, split "/" (n +:+ ":" +:+ i +:+ rest)
               = (n +:+ ":" +:+ i) :: l) as [l ->].
  { destruct Hrest as [->|[r ->]].
    - exists []. rewrite append_empty_r. apply split_char_absent.
      rewrite !count_char_app. simpl. lia.
    - exists (split "/" r).
      replace (n +:+ ":" +:+ i +:+ "/" +:+ r)
        with ((n +:+ ":" +:+ i) +:+ "/" +:+ r) by (by rewrite !append_assoc).
      apply split_char_app. rewrite !count_char_app. simpl. lia. }
  cbn [py_index lookup list_lookup rbind].
  rewrite (split_char_app ":" n i), (split_char_absent ":" i) by done.
  done.
Qed.

End TaskStringFacts.

Section TaskStringClaims.
Import PyStr.

Lemma encode_task_string_count c k1 k2 p n i :
  count_char c (encode_task_string k1 k2 p n i)
  = count_char c k1 + count_char c "+" + count_char c k2 + count_char c "://"
    + count_char c p + count_char c "/" + count_char c n + count_char c ":"
    + count_char c i.
Proof. unfold encode_task_string. rewrite !count_char_app. lia. Qed.


(** A string with fewer than two [:], the one of [://] and the one between
    name and id, is not of the accepted shape. *)
Lemma missing_colon_not_accepted s : count_char ":" s < 2 → ¬ accepted_shape s.
Proof.
  intros H (k1 & k2 & p & n & i & rest & -> & _).
  rewrite count_char_app, encode_task_string_count in H. simpl in H. lia.
Qed.

(** A string without [://] is not of the accepted shape. *)
Lemma missing_scheme_sep_not_accepted s :
  contains "://" s = false → ¬ accepted_shape s.
Proof.
  intros H (k1 & k2 & p & n & i & rest & -> & _).
  unfold encode_task_string in H.
  replace ((k1 +:+ "+" +:+ k2 +:+ "://" +:+ p +:+ "/" +:+ n +:+ ":" +:+ i) +:+ rest)
    with ((k1 +:+ "+" +:+ k2) +:+ "://" +:+ (p +:+ "/" +:+ n +:+ ":" +:+ i +:+ rest))
    in H by (by rewrite !append_assoc).
  by rewrite contains_app_intro in H.
Qed.



(** A string of the accepted shape with more segments after the name/id
    pair, and one that has that look but a second [://]. *)
Example parse_trailing_segments :
  parse_task_string (PStr "a+b://p/n:id/x/y") (PStr "t1")
  = Ok (mkTaskString "a" "b" "n" "id" (PStr "t1"))
  ∧ parse_task_string (PStr "a+b://p/n:id/x://y") (PStr "t1")
    = Raise (Exn ValueError "too many values to unpack (expected 2)").
Proof. split; reflexivity. Qed.

Example parse_missing_plus :
  parse_task_string (PStr "transform://ns/myfn:f1") (PStr "t1")
  = Raise (Exn ValueError "not enough values to unpack (expected 2, got 1)").
Proof. reflexivity. Qed.

Example parse_missing_scheme_sep :
  parse_task_string (PStr "transform+transform:ns/myfn:f1") (PStr "t1")
  = Raise (Exn ValueError "not enough values to unpack (expected 2, got 1)").
Proof. reflexivity. Qed.

Example parse_missing_colon :
  parse_task_string (PStr "transform+transform://ns/myfn") (PStr "t1")
  = Raise (Exn ValueError "not enough values to unpack (expected 2, got 1)").
Proof. reflexivity. Qed.

Example parse_missing_slash :
  parse_task_string (PStr "transform+transform://myfn:f1") (PStr "t1")
  = Raise (Exn IndexError "list index out of range").
Proof. reflexivity. Qed.



(** C6, as amended: for a task string [k1+k2://p/n:id] whose kinds hold
    neither [+] nor [://], whose path holds no [/], and whose name and id
    hold neither [/] nor [:], parsing yields the fields [k1], [k2], [n],
    [id] and the task id; the path [p] is not among them, and encoding the
    parsed fields together with [p] gives the string back. *)
Theorem parse_encode_task_string (k1 k2 p n i : string) (tid : pyval) :
  no_char "+" k1 → no_char "+" k2 →
  contains "://" k1 = false → contains "://" k2 = false →
  no_char "/" p →
  no_char "/" n → no_char ":" n →
  no_char "/" i → no_char ":" i →
  ∃ ts,
    parse_task_string (PStr (encode_task_string k1 k2 p n i)) tid = Ok ts
    ∧ ts = mkTaskString k1 k2 n i tid
    ∧ encode_task_string (function_kind ts) (task_kind ts) p
        (function_name ts) (function_id ts)
      = encode_task_string k1 k2 p n i.
Proof.
  intros Hk1 Hk2 Hc1 Hc2 Hp Hn Hnc Hi Hic.
  exists (mkTaskString k1 k2 n i tid). split; [|done].
  rewrite <- (append_empty_r (encode_task_string k1 k2 p n i)).
  apply parse_task_string_accepts; try done; [by left|].
  apply contains_scheme_one_slash. unfold no_char in *.
  rewrite !count_char_app. simpl. lia.
Qed.

Lemma parse_encode_task_string_witness :
  ∃ ts,
    parse_task_string
      (PStr (encode_task_string "a:b" "transform" "ns:x" "myfn" "f1"))
      (PStr "t1") = Ok ts
    ∧ ts = mkTaskString "a:b" "transform" "myfn" "f1" (PStr "t1")
    ∧ encode_task_string (function_kind ts) (task_kind ts) "ns:x"
        (function_name ts) (function_id ts)
      = encode_task_string "a:b" "transform" "ns:x" "myfn" "f1".
Proof. apply parse_encode_task_string; reflexivity. Defined.

(** Each hypothesis is needed: with a [+] or a [://] in a kind, a [/] in
    the path, a [/] or a [:] in the name, or a [:] in the id, the string is
    not parsed; with a [/] in the id it is parsed to another id. *)
Example parse_encode_hypotheses_needed :
  let fails k1 k2 p n i :=
    ∃ e, parse_task_string (PStr (encode_task_string k1 k2 p n i)) PNone
         = Raise e in
  fails "a+x" "b" "p" "n" "i" ∧ fails "a" "b+x" "p" "n" "i"
  ∧ fails "a://x" "b" "p" "n" "i" ∧ fails "a" "b://x" "p" "n" "i"
  ∧ fails "a" "b" "p/q" "n" "i"
  ∧ fails "a" "b" "p" "n/x" "i" ∧ fails "a" "b" "p" "n:x" "i"
  ∧ fails "a" "b" "p" "n" "i:x"
  ∧ parse_task_string (PStr (encode_task_string "a" "b" "p" "n" "i/x")) PNone
    = Ok (mkTaskString "a" "b" "n" "i" PNone).
Proof. cbn zeta. repeat split; try (eexists; reflexivity). Qed.

(** C6, the claim as stated fails: two task strings that differ in their
    path are parsed to the same five fields, so no encoding of the five
    fields gives back both. *)
Lemma task_string_path_not_recovered :
  let ts := mkTaskString "a" "b" "n" "id" (PStr "t1") in
  parse_task_string (PStr "a+b://p/n:id") (PStr "t1") = Ok ts
  ∧ parse_task_string (PStr "a+b://q/n:id") (PStr "t1") = Ok ts
  ∧ ∀ encode : TaskString → string,
      ¬ (encode ts = "a+b://p/n:id" ∧ encode ts = "a+b://q/n:id").
Proof.
  cbn zeta. split; [reflexivity|]. split; [reflexivity|].
  intros encode [H1 H2]. rewrite H1 in H2. discriminate H2.
Qed.

(** A path of more than one segment, which the documented format allows,
    is not parsed: the pair is looked for in the second segment. *)
Lemma parse_rejects_nested_path :
  documented_format "a+b://p/q/n:id"
  ∧ parse_task_string (PStr "a+b://p/q/n:id") (PStr "t1")
    = Raise (Exn ValueError "not enough values to unpack (expected 2, got 1)").
Proof.
  split; [|reflexivity].
  by exists "a", "b", "p/q", "n", "id".
Qed.

End TaskStringClaims.

(** ** Computations *)

Section MonadFacts.
Context {S A B : Type}.

Lemma bind_Ok (m : M S A) (k : A → M S B) s s1 a :
  m s = (s1, Ok a) → bind m k s = k a s1.
Proof. unfold bind. by intros ->. Qed.

Lemma bind_Raise (m : M S A) (k : A → M S B) s s1 e :
  m s = (s1, Raise e) → bind m k s = (s1, Raise e).
Proof. unfold bind. by intros ->. Qed.

Lemma bind_Ok_inv (m : M S A) (k : A → M S B) s s2 b :
  bind m k s = (s2, Ok b) →
  ∃ s1 a, m s = (s1, Ok a) ∧ k a s1 = (s2, Ok b).
Proof. unfold bind. destruct (m s) as [s1 [a|e]]; [eauto|done]. Qed.

Lemma lift_inv (r : result A) (s s' : S) x : lift r s = (s', x) → s' = s ∧ x = r.
Proof. unfold lift. intros [= <- <-]. done. Qed.

Lemma try_except_Ok_inv (m : M S A) (h : exn → M S A) s s2 a :
  try_except_Exception m h s = (s2, Ok a) →
  m s = (s2, Ok a)
  ∨ ∃ s1 e, m s = (s1, Raise e) ∧ is_Exception e = true ∧ h e s1 = (s2, Ok a).
Proof.
  unfold try_except_Exception. destruct (m s) as [s1 [a'|e]]; [by left|].
  destruct (is_Exception e) eqn:E; [|done]. right. eauto.
Qed.

End MonadFacts.

(** ** The Run protocol *)

Section RunClaims.
Context {W : Type} `{env : RunEnv W}.

Lemma in_world_eq {A} (m : M W A) (r : Run) (w : W) :
  in_world m (r, w) = ((r, (m w).1), (m w).2).
Proof. unfold in_world. simpl. by destruct (m w). Qed.

(** Resolving the runtime reads the object and changes nothing. *)
Lemma Run__get_runtime_eq (r : Run) (w : W) :
  Run__get_runtime (r, w)
  = ((r, w), rbind (Run__parse_task_string r)
               (λ parsed, build_runtime (function_kind parsed))).
Proof.
  unfold Run__get_runtime, bind, get_self, lift. simpl.
  by destruct (Run__parse_task_string r).
Qed.

(** [save] leaves the spec and the status of the object as they are. *)
Lemma Run_save_keeps uuid r w r' w' (x : result dict) :
  Run_save uuid (r, w) = ((r', w'), x) →
  run_status r' = run_status r ∧ run_spec r' = run_spec r
  ∧ run_local r' = run_local r.
Proof.
  unfold Run_save, bind, get_self, raise, modify_self, ret. simpl.
  destruct (run_local r) eqn:Hl; [by intros [= <- <- <-]|].
  destruct uuid; rewrite in_world_eq; simpl;
    try (intros [= <- <- <-]; done).
  destruct (create_object _ _ w) as [w1 [resp|e]]; simpl;
    [|by intros [= <- <- <-]].
  destruct (default PNone (resp !! "id")); by intros [= <- <- <-].
Qed.

(** A local run is not saved. *)
Lemma Run_save_local uuid r w :
  run_local r = true →
  Run_save uuid (r, w)
  = ((r, w), Raise (Exn EntityError "Use .export() for local execution.")).
Proof. unfold Run_save, bind, get_self, raise. simpl. by intros ->. Qed.

(** What [run] does once the runtime is resolved and its [run] has
    raised an exception that derives from [Exception]: the status is set
    and the object is saved. *)
Lemma Run_run_caught local r w w1 rt e :
  Run__get_runtime (r, w) = ((r, w), Ok rt) →
  rt_run rt (to_dict true r) w = (w1, Raise e) →
  is_Exception e = true →
  Run_run local (r, w)
  = (Run_save (run_id r) ;; get_self) (set_status (error_status e) r, w1).
Proof.
  intros Hrt Hrun Hexc. unfold Run_run.
  rewrite (bind_Ok _ _ _ _ _ Hrt).
  erewrite (bind_Ok (try_except_Exception _ _)); last first.
  { unfold try_except_Exception, bind, get_self. simpl.
    rewrite in_world_eq, Hrun. simpl. rewrite Hexc. reflexivity. }
  reflexivity.
Qed.

(** What [save(self.id)] does for a run that is not local and has an id:
    the payload goes to [update_object], and the object stays as it is. *)
Lemma Run_save_update r w :
  run_local r = false → run_id r ≠ PNone →
  Run_save (run_id r) (r, w)
  = in_world (update_object (save_payload r) (api_base_update RUNS (run_id r)))
      (r, w).
Proof.
  intros Hl Hid. unfold Run_save, bind, get_self, modify_self. simpl.
  rewrite Hl. destruct r as [i k m sp st l]. simpl in *.
  by destruct i.
Qed.

(** [save(self.id)] on a Run that is not local is the request to the
    backend; when the backend answers, the Run is the saved one. *)
Lemma Run_save_request r w :
  run_local r = false →
  Run_save (run_id r) (r, w)
  = match save_request r w with
    | (w', Ok response) => ((saved r response, w'), Ok response)
    | (w', Raise e) => ((r, w'), Raise e)
    end.
Proof.
  intros Hl. unfold Run_save, save_request, saved, bind, get_self, modify_self.
  simpl. rewrite Hl. destruct r as [i k m sp st l]. simpl in *.
  destruct i; rewrite in_world_eq; simpl;
    try (by destruct (update_object _ _ w) as [w' [resp|e]]).
  destruct (create_object _ _ w) as [w' [resp|e]]; simpl; [|done].
  by destruct (default PNone (resp !! "id")).
Qed.

Lemma saved_status r response : run_status (saved r response) = run_status r.
Proof.
  unfold saved. by destruct (run_id r), (default PNone (response !! "id")).
Qed.

(** What [run] does when the [run] of the runtime has raised an exception
    that derives from [Exception] and the backend accepts the save. *)
Lemma Run_run_caught_saved local r w w1 w2 rt e response :
  run_local r = false →
  Run__get_runtime (r, w) = ((r, w), Ok rt) →
  rt_run rt (to_dict true r) w = (w1, Raise e) →
  is_Exception e = true →
  save_request (set_status (error_status e) r) w1 = (w2, Ok response) →
  Run_run local (r, w)
  = ((saved (set_status (error_status e) r) response, w2),
     Ok (saved (set_status (error_status e) r) response)).
Proof.
  intros Hl Hrt Hrun Hexc Hsave.
  rewrite (Run_run_caught local r w w1 rt e Hrt Hrun Hexc).
  unfold bind.
  change (run_id r) with (run_id (set_status (error_status e) r)) at 1.
  rewrite (Run_save_request (set_status (error_status e) r) w1 Hl), Hsave.
  reflexivity.
Qed.


(** An exception that does not derive from [Exception] goes through. *)
Lemma Run_run_base_exception local r w w1 rt e :
  Run__get_runtime (r, w) = ((r, w), Ok rt) →
  rt_run rt (to_dict true r) w = (w1, Raise e) →
  is_Exception e = false →
  Run_run local (r, w) = ((r, w1), Raise e).
Proof.
  intros Hrt Hrun Hexc. unfold Run_run.
  rewrite (bind_Ok _ _ _ _ _ Hrt).
  erewrite (bind_Raise (try_except_Exception _ _)); [done|].
  unfold try_except_Exception, bind, get_self. simpl.
  rewrite in_world_eq, Hrun. simpl. by rewrite Hexc.
Qed.

(** On a local run the exception of the runtime is recorded in the
    object, and then [save] raises. *)
Lemma Run_run_local local r w w1 rt e :
  Run__get_runtime (r, w) = ((r, w), Ok rt) →
  rt_run rt (to_dict true r) w = (w1, Raise e) →
  is_Exception e = true →
  run_local r = true →
  Run_run local (r, w)
  = ((set_status (error_status e) r, w1),
     Raise (Exn EntityError "Use .export() for local execution.")).
Proof.
  intros Hrt Hrun Hexc Hloc.
  rewrite (Run_run_caught local r w w1 rt e Hrt Hrun Hexc).
  erewrite bind_Raise; [done|]. by apply Run_save_local.
Qed.

(** C10: the runtime is resolved before the [try]: when the task string
    of the Run is not parsed, or no runtime is registered for its function
    kind, [Run.run] raises that error, and neither the Run, its status
    included, nor the world has changed. *)
Theorem Run_run_unresolved_runtime (local : bool) (r : Run) (w : W) (e : exn) :
  (Run__parse_task_string r = Raise e
   ∨ ∃ parsed, Run__parse_task_string r = Ok parsed
               ∧ build_runtime (function_kind parsed) = Raise e) →
  Run_run local (r, w) = ((r, w), Raise e).
Proof.
  intros H. unfold Run_run. apply bind_Raise.
  rewrite Run__get_runtime_eq.
  destruct H as [->|(parsed & -> & H)]; [done|]. by rewrite <- H.
Qed.

End RunClaims.



Lemma Run_run_unresolved_runtime_witness :
  Run_run true (run0 "nope+job://ns/myfn:f1" ∅ false, world0)
  = ((run0 "nope+job://ns/myfn:f1" ∅ false, world0),
     Raise (Exn (OtherException "UnknownRuntimeError") "no runtime for nope"))
  ∧ Run_run true (run0 "transform+transform:ns/myfn:f1" ∅ false, world0)
    = ((run0 "transform+transform:ns/myfn:f1" ∅ false, world0),
       Raise (Exn ValueError "not enough values to unpack (expected 2, got 1)")).
Proof.
  split.
  - apply Run_run_unresolved_runtime. right.
    exists (mkTaskString "nope" "job" "myfn" "f1" (PStr "t1")).
    split; reflexivity.
  - apply Run_run_unresolved_runtime. left. reflexivity.
Defined.


(** ** The DBT runtime *)

Section DbtClaims.
Context {W : Type} `{denv : DbtEnv W}.

Lemma get_timings_Ok res t :
  get_timings res = Ok t → ∃ v, t = {[ "timing" := v ]}.
Proof.
  unfold get_timings, bare_raise.
  destruct (select_timings (timing res) None None) as [[c|] [x|]]; try done.
  destruct (started_at x), (completed_at x); try done.
  destruct (started_at c), (completed_at c); try done.
  intros [= <-]. eauto.
Qed.

Lemma reraise_as_Ok {A} (r : result A) e' a : reraise_as r e' = Ok a → r = Ok a.
Proof. destruct r as [a'|e]; simpl; [done|]. by destruct (is_Exception e). Qed.

Lemma rbind_Ok_inv {A B} (r : result A) (k : A → result B) b :
  rbind r k = Ok b → ∃ a, r = Ok a ∧ k a = Ok b.
Proof. destruct r as [a|e]; simpl; [eauto|done]. Qed.

(** When the results are parsed their timings have the one key [timing]. *)
Lemma parse_results_Ok rr output project pr :
  parse_results rr output project = Ok pr →
  ∃ v, pr_timings pr = {[ "timing" := v ]}.
Proof.
  unfold parse_results. intros (res & _ & H)%rbind_Ok_inv.
  apply reraise_as_Ok in H.
  apply rbind_Ok_inv in H as (path & _ & H).
  apply rbind_Ok_inv in H as (raw & _ & H).
  apply rbind_Ok_inv in H as (compiled & _ & H).
  apply rbind_Ok_inv in H as (timings & Ht & H).
  injection H as <-. by apply get_timings_Ok in Ht.
Qed.

(** A dataitem that [create_dataitem] returns is one that [new_dataitem]
    has just made, of the DBT kind. *)
Lemma create_dataitem_Ok pr project uuid w w' di :
  create_dataitem pr project uuid w = (w', Ok di) →
  new_dataitem project (pr_name pr) DataitemKinds_DBT (pr_path pr) uuid
    (pr_raw_code pr) (pr_compiled_code pr) w = (w', Ok di).
Proof.
  unfold create_dataitem. intros [H|(w1 & e & _ & _ & H)]%try_except_Ok_inv;
    [done|]. by unfold raise in H.
Qed.

Lemma parse_outputs_Ok outputs output :
  parse_outputs outputs = Ok output →
  ∃ out rest, outputs = PList (out :: rest) ∧ output = py_str out.
Proof.
  destruct outputs as [| | | |[|out rest]|]; simpl; try done.
  intros [= <-]. eauto.
Qed.

(** The status that [transform] returns, written out. *)
Lemma RuntimeDBT_transform_Ok (run : dict) (w w' : W) (v : pyval) :
  RuntimeDBT_transform run w = (w', Ok v) →
  ∃ (out : pyval) (rest : list pyval) (di : Dataitem) (tv : pyval),
    spec_dataitems (default PNone (run !! "spec")) "outputs"
    = Ok (PList (out :: rest))
    ∧ v = PDict (<["state" := PStr State_COMPLETED]>
                  ({[ "timing" := tv ]} ∪ get_dataitem_info (py_str out) di))
    ∧ ∃ name path uuid raw compiled w0,
        new_dataitem (default PNone (run !! "project")) name DataitemKinds_DBT
          path uuid raw compiled w0 = (w', Ok di).
Proof.
  unfold RuntimeDBT_transform. cbn zeta. intros H.
  apply bind_Ok_inv in H as (w1 & inputs_l & _ & H).
  apply bind_Ok_inv in H as (w2 & inputs & _ & H).
  apply bind_Ok_inv in H as (w3 & outputs_l & [-> Hout]%lift_inv & H).
  apply bind_Ok_inv in H as (w4 & output & [-> Hpo]%lift_inv & H).
  apply bind_Ok_inv in H as (w5 & uuid & _ & H).
  apply bind_Ok_inv in H as (w6 & sql & _ & H).
  apply bind_Ok_inv in H as (w7 & [] & _ & H).
  apply bind_Ok_inv in H as (w8 & results & _ & H).
  apply bind_Ok_inv in H as (w9 & pr & [-> Hpr]%lift_inv & H).
  apply bind_Ok_inv in H as (w10 & di & Hdi & H).
  unfold ret in H. injection H as <- <-.
  symmetry in Hpo. apply parse_outputs_Ok in Hpo as (out & rest & -> & ->).
  symmetry in Hpr. apply parse_results_Ok in Hpr as (tv & ->).
  apply create_dataitem_Ok in Hdi.
  exists out, rest, di, tv. eauto 10.
Qed.

(** C9: when [transform] returns, the status it returns has state
    [COMPLETED] and a list [dataitems] with one entry; the key of the entry
    is the first declared output, and its id is
    [store://<project>/dataitems/<kind>/<name>:<id>], written from the
    attributes of the dataitem that [new_dataitem] has just created. *)
Theorem RuntimeDBT_transform_status (run : dict) (w w' : W) (v : pyval) :
  RuntimeDBT_transform run w = (w', Ok v) →
  ∃ (out : pyval) (rest : list pyval) (di : Dataitem) (d : dict),
    spec_dataitems (default PNone (run !! "spec")) "outputs"
    = Ok (PList (out :: rest))
    ∧ v = PDict d
    ∧ d !! "state" = Some (PStr State_COMPLETED)
    ∧ d !! "dataitems"
      = Some (PList
          [ PDict (<["key" := PStr (py_str out)]>
                  (<["kind" := PStr (di_kind di)]>
                  (<["id" := PStr ("store://" +:+ di_project di +:+ "/dataitems/"
                                   +:+ di_kind di +:+ "/" +:+ di_name di
                                   +:+ ":" +:+ di_id di)]> ∅))) ])
    ∧ ∃ name path uuid raw compiled w0,
        new_dataitem (default PNone (run !! "project")) name DataitemKinds_DBT
          path uuid raw compiled w0 = (w', Ok di).
Proof.
  intros (out & rest & di & tv & Hout & -> & Hnew)%RuntimeDBT_transform_Ok.
  exists out, rest, di. eexists. split; [done|]. split; [reflexivity|].
  split; [by rewrite lookup_insert_eq|]. split; [|done].
  rewrite lookup_insert_ne by done.
  rewrite lookup_union_r by (by rewrite lookup_singleton_ne).
  unfold get_dataitem_info. by rewrite lookup_singleton_eq.
Qed.

(** What [RuntimeDBT.run] returns without raising is what [transform]
    returned. *)
Lemma RuntimeDBT_run_Ok run w w' v :
  RuntimeDBT_run run w = (w', Ok v) → RuntimeDBT_transform run w = (w', Ok v).
Proof.
  unfold RuntimeDBT_run. intros H.
  apply bind_Ok_inv in H as (w1 & state & [-> _]%lift_inv & H).
  destruct (negb (py_eq_str state State_PENDING)); [done|].
  apply bind_Ok_inv in H as (w2 & task & [-> _]%lift_inv & H).
  apply bind_Ok_inv in H as (w3 & l & [-> _]%lift_inv & H).
  apply bind_Ok_inv in H as (w4 & kinds & [-> _]%lift_inv & H).
  apply bind_Ok_inv in H as (w5 & action & [-> _]%lift_inv & H).
  by destruct (bool_decide (action = TaskKinds_TRANSFORM)).
Qed.

(** A run that is not pending is refused before its task is looked at. *)
Lemma RuntimeDBT_run_not_pending run w st :
  run !! "status" = Some (PDict st) →
  py_eq_str (default PNone (st !! "state")) State_PENDING = false →
  RuntimeDBT_run run w = (w, Raise not_pending_error).
Proof.
  intros Hst Hstate. unfold RuntimeDBT_run, bind, lift, raise.
  rewrite Hst. simpl. by rewrite Hstate.
Qed.

(** C7, as amended: for a run dictionary in state [PENDING] whose task
    string decodes, as [RuntimeDBT.run] decodes it, to a task kind
    [action]: if [action] is not among the allowed tasks, [run] raises
    [EntityError] "Task <action> not allowed for DBT runtime"; if it is, it
    is [transform] and [run] is the [transform] handler. *)
Theorem RuntimeDBT_run_dispatch (run st sp : dict) (w : W)
    (t kinds action : string) :
  run !! "status" = Some (PDict st) →
  st !! "state" = Some (PStr State_PENDING) →
  run !! "spec" = Some (PDict sp) →
  sp !! "task" = Some (PStr t) →
  PyStr.split ":" t !! 0 = Some kinds →
  PyStr.split "+" kinds !! 1 = Some action →
  (action ∉ RuntimeDBT_get_allowed_tasks →
   RuntimeDBT_run run w
   = (w, Raise (Exn EntityError
                  ("Task " +:+ action +:+ " not allowed for DBT runtime"))))
  ∧ (action ∈ RuntimeDBT_get_allowed_tasks →
     action = TaskKinds_TRANSFORM
     ∧ RuntimeDBT_run run w = RuntimeDBT_transform run w).
Proof.
  intros Hst Hstate Hsp Htask Hkinds Haction.
  assert (Hrun : RuntimeDBT_run run w
                 = if bool_decide (action = TaskKinds_TRANSFORM)
                   then RuntimeDBT_transform run w
                   else (w, Raise (Exn EntityError
                          ("Task " +:+ action +:+ " not allowed for DBT runtime")))).
  { unfold RuntimeDBT_run, bind, lift, raise, py_index.
    rewrite Hst, Hsp. simpl. rewrite Hstate, Htask. simpl.
    rewrite Hkinds, Haction. by case_bool_decide. }
  unfold RuntimeDBT_get_allowed_tasks. split; intros Hin.
  - rewrite Hrun. rewrite bool_decide_false; [done|].
    intros ->. apply Hin. by apply list_elem_of_singleton.
  - apply list_elem_of_singleton in Hin as ->.
    split; [done|]. rewrite Hrun. by rewrite bool_decide_true.
Qed.

End DbtClaims.


Lemma RuntimeDBT_transform_status_witness :
  ∃ v,
    RuntimeDBT_transform (run_dict0 scenario_task State_PENDING) world0
    = (world0, Ok v)
    ∧ ∃ d, v = PDict d
        ∧ d !! "state" = Some (PStr State_COMPLETED)
        ∧ d !! "dataitems"
          = Some (PList
              [ PDict (<["key" := PStr "t2"]>
                      (<["kind" := PStr "dbt"]>
                      (<["id" := PStr "store://ns/dataitems/dbt/t2:u1"]> ∅))) ]).
Proof.
  eexists. split; [vm_compute; reflexivity|].
  edestruct (RuntimeDBT_transform_status (denv := dbt_env0)
               (run_dict0 scenario_task State_PENDING) world0 world0)
    as (out & rest & di & d & Hout & Hv & Hstate & Hitems & Hnew);
    [vm_compute; reflexivity|].
  exists d. split; [done|]. split; [done|].
  injection Hv as <-. vm_compute. reflexivity.
Defined.

Lemma RuntimeDBT_run_dispatch_witness :
  RuntimeDBT_run (run_dict0 "transform+validate://ns/myfn:f1" State_PENDING) world0
  = (world0,
     Raise (Exn EntityError "Task validate not allowed for DBT runtime"))
  ∧ RuntimeDBT_run (run_dict0 scenario_task State_PENDING) world0
    = RuntimeDBT_transform (run_dict0 scenario_task State_PENDING) world0.
Proof.
  split.
  - refine (proj1 (RuntimeDBT_run_dispatch (denv := dbt_env0)
                     (run_dict0 "transform+validate://ns/myfn:f1" State_PENDING)
                     {[ "state" := PStr State_PENDING ]}
                     (<["sql" := PStr "select 1"]>
                        (spec0 "transform+validate://ns/myfn:f1"))
                     world0 "transform+validate://ns/myfn:f1"
                     "transform+validate" "validate"
                     eq_refl eq_refl eq_refl eq_refl eq_refl eq_refl) _).
    by intros [= ]%list_elem_of_singleton.
  - refine (proj2 (proj2 (RuntimeDBT_run_dispatch (denv := dbt_env0)
                     (run_dict0 scenario_task State_PENDING)
                     {[ "state" := PStr State_PENDING ]}
                     (<["sql" := PStr "select 1"]> (spec0 scenario_task))
                     world0 scenario_task "transform+transform" "transform"
                     eq_refl eq_refl eq_refl eq_refl eq_refl eq_refl) _)).
    by apply list_elem_of_singleton.
Defined.

(** C7, the claim as stated fails: this run dictionary decodes to the task
    kind [validate], which the DBT runtime does not allow, and its state is
    [COMPLETED]; [run] raises the error of the state check, not the error of
    the task check. *)
Lemma RuntimeDBT_run_state_checked_first :
  let run := run_dict0 "transform+validate://ns/myfn:f1" State_COMPLETED in
  PyStr.split ":" "transform+validate://ns/myfn:f1" !! 0
  = Some "transform+validate"
  ∧ PyStr.split "+" "transform+validate" !! 1 = Some "validate"
  ∧ ("validate" ∉ RuntimeDBT_get_allowed_tasks)
  ∧ RuntimeDBT_run run world0
    = (world0,
       Raise (Exn EntityError "Run is not in pending state. Build it again."))
  ∧ RuntimeDBT_run run world0
    ≠ (world0,
       Raise (Exn EntityError "Task validate not allowed for DBT runtime")).
Proof.
  cbn zeta. split; [reflexivity|]. split; [reflexivity|].
  split; [by intros [= ]%list_elem_of_singleton|].
  split; [reflexivity|]. intros H. vm_compute in H. discriminate H.
Qed.


(** ** Retrieving the results of a Run *)

Section RetrievalClaims.
Context {W : Type} `{env : RunEnv W}.

Lemma next_id_absent k entries :
  no_entry_with_key k entries → next_id entries k = Ok PNone.
Proof.
  induction 1 as [|x rest (d & -> & Hk) _ IH]; [done|].
  simpl. by rewrite Hk.
Qed.

Lemma next_id_found k pre d post :
  no_entry_with_key k pre →
  d !! "key" = Some (PStr k) →
  next_id (pre ++ PDict d :: post) k = Ok (default PNone (d !! "id")).
Proof.
  intros Hpre Hd. induction Hpre as [|x rest (dx & -> & Hk) _ IH].
  - simpl. rewrite Hd. simpl. by rewrite bool_decide_true.
  - simpl. by rewrite Hk.
Qed.

Lemma resolve_all_resolved {E} (lookup : pyval → M W E) entries w l w' :
  resolved lookup entries w l w' →
  resolve_all lookup entries w = (w', Ok l).
Proof.
  induction 1 as [|d rest w w1 w2 a l Hlook _ IH]; [done|].
  cbn [resolve_all]. unfold bind at 1. unfold lift at 1. cbn [py_get].
  rewrite (bind_Ok _ _ _ _ _ Hlook), (bind_Ok _ _ _ _ _ IH). done.
Qed.

Ltac retrieval_head get Hrefresh Hst :=
  unfold get; rewrite (bind_Ok _ _ _ _ _ Hrefresh);
  unfold bind at 1; unfold lift at 1; cbn [py_get_default]; rewrite Hst;
  unfold bind at 1; unfold lift at 1; cbn [py_get].

Ltac retrieval get :=
  intros r w w1 resp st Hrefresh Hst; split;
  [ intros Hnone key; retrieval_head get Hrefresh Hst;
    rewrite Hnone; reflexivity
  | intros entries Hentries; split; [|split; [|split]];
    [ intros k pre d post v w2 a -> Hpre Hkey Hid Hv Hlook;
      retrieval_head get Hrefresh Hst; rewrite Hentries; cbn [default from_option id];
      unfold bind at 1; unfold lift at 1; cbn [py_iter];
      unfold bind at 1; unfold lift at 1;
      rewrite (next_id_found k pre d post Hpre Hkey), Hid; cbn [default from_option id];
      destruct v; try done;
        unfold bind; rewrite in_world_eq, Hlook; reflexivity
    | intros k pre d post -> Hpre Hkey Hid;
      retrieval_head get Hrefresh Hst; rewrite Hentries; cbn [default from_option id];
      unfold bind at 1; unfold lift at 1; cbn [py_iter];
      unfold bind at 1; unfold lift at 1;
      rewrite (next_id_found k pre d post Hpre Hkey), Hid; reflexivity
    | intros k Hno;
      retrieval_head get Hrefresh Hst; rewrite Hentries; cbn [default from_option id];
      unfold bind at 1; unfold lift at 1; cbn [py_iter];
      unfold bind at 1; unfold lift at 1;
      rewrite (next_id_absent k entries Hno); reflexivity
    | intros l w2 Hres;
      retrieval_head get Hrefresh Hst; rewrite Hentries; cbn [default from_option id];
      unfold bind at 1; unfold lift at 1; cbn [py_iter];
      unfold bind; rewrite in_world_eq,
        (resolve_all_resolved _ _ _ _ _ Hres); reflexivity ] ].

(** C8, as amended: [get_artifacts] and [get_dataitem] refresh the Run and
    read the list under [artifacts], respectively [dataitems], of its
    status.  When there is no list they raise [EntityError] "Run has no
    result ...".  With a key, the first entry that has the key decides:
    when it has an id that is not [None], they return the one entity that
    the lookup gives for that id; when it has no id, or the id [None],
    they raise [EntityError] "No ... found with key ...", whatever the
    entries after it are; with a key that no entry has they raise the same
    error.  Without a key, they return the list of the entities of all
    entries. *)
Theorem Run_get_results :
  retrieval_contract Run_get_artifacts "artifacts" "artifact"
    get_artifact_from_key
  ∧ retrieval_contract Run_get_dataitem "dataitems" "dataitem"
      get_dataitem_from_key.
Proof.
  split.
  - retrieval (@Run_get_artifacts).
  - retrieval (@Run_get_dataitem).
Qed.

End RetrievalClaims.

Lemma Run_get_results_witness :
  let r := run0 scenario_task ∅ false in
  Run_get_artifacts (Some "out") (r, world_out) = ((r, world_out), Ok (One "a1"))
  ∧ Run_get_artifacts (Some "missing") (r, world_out)
    = ((r, world_out),
       Raise (Exn EntityError "No artifact found with key 'missing'."))
  ∧ Run_get_artifacts None (r, world_out) = ((r, world_out), Ok (All ["a1"]))
  ∧ Run_get_artifacts None (r, world0)
    = ((r, world0),
       Raise (Exn EntityError "Run has no result (maybe try when it finishes)."))
  ∧ Run_get_dataitem (Some "out") (r, world_out)
    = ((r, world_out),
       Raise (Exn EntityError "Run has no result (maybe try when it finishes)."))
  ∧ Run_get_artifacts (Some "out") (r, world_two_entries)
    = ((r, world_two_entries),
       Raise (Exn EntityError "No artifact found with key 'out'.")).
Proof.
  cbn zeta.
  destruct (Run_get_results (env := run_env0)) as [Hart Hdi].
  destruct (Hart (run0 scenario_task ∅ false) world_out world_out _ _
              eq_refl eq_refl) as [_ Hlist].
  destruct (Hlist _ eq_refl) as (Hfound & _ & Hmissing & Hall).
  split.
  { apply (Hfound "out" [] (<["key" := PStr "out"]> (<["id" := PStr "a1"]> ∅))
             [] (PStr "a1") world_out "a1");
      try done; constructor. }
  split.
  { apply (Hmissing "missing"). repeat constructor. eexists. split; done. }
  split.
  { apply Hall. repeat econstructor. }
  split.
  { by apply (proj1 (Hart (run0 scenario_task ∅ false) world0 world0 ∅ ∅
                       eq_refl eq_refl)). }
  split.
  { by apply (proj1 (Hdi (run0 scenario_task ∅ false) world_out world_out _ _
                       eq_refl eq_refl)). }
  destruct (Hart (run0 scenario_task ∅ false) world_two_entries
              world_two_entries _ _ eq_refl eq_refl) as [_ Hlist2].
  destruct (Hlist2 _ eq_refl) as (_ & Hnoid & _).
  apply (Hnoid "out" [] {[ "key" := PStr "out" ]}
           [PDict (<["key" := PStr "out"]> (<["id" := PStr "a1"]> ∅))]);
    try done; constructor.
Defined.

(** C8, the claim as stated fails: the second entry of the list has the key
    [out] and the id [a1], which the lookup resolves; the first entry has
    the key and no id, and [get_artifacts] raises the not-found error. *)
Lemma Run_get_results_first_entry_decides :
  let r := run0 scenario_task ∅ false in
  let entry : dict := <["key" := PStr "out"]> (<["id" := PStr "a1"]> ∅) in
  w_run world_two_entries
  = {[ "status" := PDict {[ "artifacts" :=
         PList [ PDict {[ "key" := PStr "out" ]}; PDict entry ] ]} ]}
  ∧ entry !! "key" = Some (PStr "out")
  ∧ get_artifact_from_key (default PNone (entry !! "id")) world_two_entries
    = (world_two_entries, Ok "a1")
  ∧ Run_get_artifacts (Some "out") (r, world_two_entries)
    = ((r, world_two_entries),
       Raise (Exn EntityError "No artifact found with key 'out'.")).
Proof. cbn zeta. repeat split. Qed.

(** ** Build and run *)

Section ProtocolClaims.
Context {W : Type} `{env : RunEnv W}.

Lemma Run__get_function_eq (r : Run) (w : W) :
  Run__get_function (r, w)
  = match Run__parse_task_string r with
    | Ok parsed =>
        in_world (read_object
          (api_ctx_read (project (run_metadata r)) FUNC
             (function_name parsed) (function_id parsed))) (r, w)
    | Raise e => ((r, w), Raise e)
    end.
Proof.
  unfold Run__get_function, bind, get_self, lift. simpl.
  by destruct (Run__parse_task_string r).
Qed.

Lemma Run__get_task_eq (r : Run) (w : W) :
  Run__get_task (r, w)
  = match Run__parse_task_string r with
    | Ok parsed => in_world (read_object (api_base_read TASK (task_id parsed))) (r, w)
    | Raise e => ((r, w), Raise e)
    end.
Proof.
  unfold Run__get_task, bind, get_self, lift. simpl.
  by destruct (Run__parse_task_string r).
Qed.

Lemma Run__get_function_self r w s x :
  Run__get_function (r, w) = (s, x) → s.1 = r.
Proof.
  rewrite Run__get_function_eq. destruct (Run__parse_task_string r).
  - rewrite in_world_eq. by intros [= <- _].
  - by intros [= <- _].
Qed.

Lemma Run__get_task_self r w s x :
  Run__get_task (r, w) = (s, x) → s.1 = r.
Proof.
  rewrite Run__get_task_eq. destruct (Run__parse_task_string r).
  - rewrite in_world_eq. by intros [= <- _].
  - by intros [= <- _].
Qed.

Lemma Run__get_runtime_world r w w' rt :
  Run__get_runtime (r, w) = ((r, w), Ok rt) →
  Run__get_runtime (r, w') = ((r, w'), Ok rt).
Proof. rewrite !Run__get_runtime_eq. by intros [= ->]. Qed.

Lemma py_kwargs_Ok v d : py_kwargs v = Ok d → v = PDict d.
Proof. destruct v; simpl; intros H; by simplify_eq. Qed.

Lemma py_keyword_once_Ok callee kw (kwargs d : dict) :
  py_keyword_once callee kw kwargs = Ok d → d = kwargs ∧ kwargs !! kw = None.
Proof.
  unfold py_keyword_once. destruct (kwargs !! kw); [done|]. by intros [= <-].
Qed.

Lemma py_keyword_once_Raise callee kw (kwargs : dict) e :
  py_keyword_once callee kw kwargs = Raise e →
  is_Some (kwargs !! kw) ∧ exn_cls e = TypeError.
Proof.
  unfold py_keyword_once. destruct (kwargs !! kw); [|done].
  intros [= <-]. eauto.
Qed.

(** What a [build] that returns has done: the function and the task were
    read, the runtime was resolved, its [build] returned a mapping without
    the key [ignore_validation], that mapping is the new spec and the
    status is the pending one. *)
Lemma Run_build_Ok_inv local r w r' w' :
  Run_build local (r, w) = ((r', w'), Ok tt) →
  ∃ function task rt w1 w2 w3 new_spec,
    Run__get_function (r, w) = ((r, w1), Ok function)
    ∧ Run__get_task (r, w1) = ((r, w2), Ok task)
    ∧ Run__get_runtime (r, w2) = ((r, w2), Ok rt)
    ∧ rt_build rt function task (to_dict false r) w2 = (w3, Ok (PDict new_spec))
    ∧ run_spec r' = new_spec
    ∧ run_status r' = {[ "state" := PStr State_PENDING ]}
    ∧ new_spec !! "ignore_validation" = None.
Proof.
  unfold Run_build. intros H.
  apply bind_Ok_inv in H as ([r1 w1] & function & Hf & H).
  pose proof (Run__get_function_self _ _ _ _ Hf) as E. simpl in E. subst r1.
  apply bind_Ok_inv in H as ([r2 w2] & task & Ht & H).
  pose proof (Run__get_task_self _ _ _ _ Ht) as E. simpl in E. subst r2.
  apply bind_Ok_inv in H as (s3 & rt & Hrt & H).
  rewrite Run__get_runtime_eq in Hrt. injection Hrt as <- Hrt.
  apply bind_Ok_inv in H as (s4 & r4 & Hself & H).
  unfold get_self in Hself. injection Hself as <- <-. simpl in H.
  apply bind_Ok_inv in H as (s5 & new_spec & Hb & H).
  rewrite in_world_eq in Hb. injection Hb as <- Hb.
  apply bind_Ok_inv in H as (s6 & kwargs & [-> Hk]%lift_inv & H).
  symmetry in Hk. apply py_kwargs_Ok in Hk as ->.
  apply bind_Ok_inv in H as (s6' & kwargs' & [-> Hk]%lift_inv & H).
  symmetry in Hk. apply py_keyword_once_Ok in Hk as [-> Hkw].
  apply bind_Ok_inv in H as (s7 & [] & Hm & H).
  unfold modify_self in Hm. injection Hm as <-. simpl in H.
  apply bind_Ok_inv in H as (s8 & [] & Hs & H).
  unfold Run__set_status, modify_self in Hs. injection Hs as <-. simpl in H.
  apply bind_Ok_inv in H as (s9 & r9 & Hself & H).
  unfold get_self in Hself. injection Hself as <- <-. simpl in H.
  apply bind_Ok_inv in H as ([r10 w10] & resp & Hsave & H).
  unfold ret in H. injection H as <- <-.
  apply Run_save_keeps in Hsave as (Hstatus & Hspec & _).
  exists function, task, rt, w1, w2,
    (rt_build rt function task (to_dict false r) w2).1, kwargs.
  repeat split; try done.
  - by rewrite Run__get_runtime_eq, Hrt.
  - rewrite <- Hb. by destruct (rt_build rt function task (to_dict false r) w2).
Qed.



(** C4: a [build] that returns leaves the Run with the status
    [{state: PENDING}], whatever its state was; so does a second [build]
    right after it. *)
Theorem Run_build_pending (local local' : bool) (r r1 : Run) (w w1 : W) :
  Run_build local (r, w) = ((r1, w1), Ok tt) →
  status_state r1 = PStr State_PENDING
  ∧ ∀ r2 w2, Run_build local' (r1, w1) = ((r2, w2), Ok tt) →
             status_state r2 = PStr State_PENDING.
Proof.
  intros H. split.
  - apply Run_build_Ok_inv in H
      as (? & ? & ? & ? & ? & ? & ? & _ & _ & _ & _ & _ & Hs & _).
    unfold status_state. by rewrite Hs.
  - intros r2 w2 H2.
    apply Run_build_Ok_inv in H2
      as (? & ? & ? & ? & ? & ? & ? & _ & _ & _ & _ & _ & Hs & _).
    unfold status_state. by rewrite Hs.
Qed.

(** What a [run] that returns has done: the runtime was resolved, its
    [run] returned a mapping or raised an exception deriving from
    [Exception], and the status of the Run is that mapping or the error
    status. *)
Lemma Run_run_Ok_inv local r w r2 w2 x :
  Run_run local (r, w) = ((r2, w2), Ok x) →
  ∃ rt w1 d,
    Run__get_runtime (r, w) = ((r, w), Ok rt)
    ∧ x = r2
    ∧ run_status r2 = d
    ∧ (rt_run rt (to_dict true r) w = (w1, Ok (PDict d))
       ∨ ∃ e, rt_run rt (to_dict true r) w = (w1, Raise e)
              ∧ is_Exception e = true ∧ d = error_status e).
Proof.
  unfold Run_run. intros H.
  apply bind_Ok_inv in H as (s1 & rt & Hrt & H).
  rewrite Run__get_runtime_eq in Hrt. injection Hrt as <- Hrt.
  apply bind_Ok_inv in H as (s2 & status & Htry & H).
  assert (∃ w1 d, s2 = (r, w1) ∧ status = PDict d
            ∧ (rt_run rt (to_dict true r) w = (w1, Ok (PDict d))
               ∨ ∃ e, rt_run rt (to_dict true r) w = (w1, Raise e)
                      ∧ is_Exception e = true ∧ d = error_status e))
    as (w1 & d & -> & -> & Hcases).
  { apply try_except_Ok_inv in Htry as [Hbody|(s & e & Hbody & He & Hh)];
      unfold bind, get_self in Hbody; simpl in Hbody;
      rewrite in_world_eq in Hbody;
      destruct (rt_run rt (to_dict true r) w) as [w1 res] eqn:Hres;
      simpl in Hbody; injection Hbody as <- ->.
    - apply bind_Ok_inv in H as (s3 & [] & Hs & _).
      unfold Run__set_status in Hs.
      destruct status as [| | | | |d]; try done. eauto 10.
    - unfold ret in Hh. injection Hh as <- <-.
      exists w1, (error_status e). eauto 10. }
  apply bind_Ok_inv in H as (s3 & [] & Hs & H).
  unfold Run__set_status, modify_self in Hs. injection Hs as <-. simpl in H.
  apply bind_Ok_inv in H as (s4 & r4 & Hself & H).
  unfold get_self in Hself. injection Hself as <- <-. simpl in H.
  apply bind_Ok_inv in H as ([r5 w5] & resp & Hsave & H).
  unfold get_self in H. injection H as <- <- <-.
  apply Run_save_keeps in Hsave as (Hstatus & _ & _).
  exists rt, w1, d. split; [by rewrite Run__get_runtime_eq, Hrt|]. done.
Qed.

End ProtocolClaims.


Lemma Run_build_pending_witness :
  ∃ r1 w1 r2 w2,
    Run_build true (run0 scenario_task ∅ false, world0) = ((r1, w1), Ok tt)
    ∧ Run_build true (r1, w1) = ((r2, w2), Ok tt)
    ∧ status_state r1 = PStr State_PENDING
    ∧ status_state r2 = PStr State_PENDING.
Proof.
  eexists _, _, _, _.
  split; [vm_compute; reflexivity|]. split; [vm_compute; reflexivity|].
  destruct (Run_build_pending (env := run_env0) true true
              (run0 scenario_task ∅ false) _ world0 _
              ltac:(vm_compute; reflexivity)) as [H1 H2].
  split; [exact H1|]. apply (H2 _ _ ltac:(vm_compute; reflexivity)).
Defined.

Section DbtProtocolClaims.
Context {W : Type} `{env : RunEnv W} `{denv : DbtEnv W}.

Lemma py_dict_unpack_Ok v d : py_dict_unpack v = Ok d → v = PDict d.
Proof. destruct v; simpl; intros H; by simplify_eq. Qed.

Lemma spec_lookup_Ok (o : dict) d :
  py_dict_unpack (default PNone (o !! "spec")) = Ok d →
  o !! "spec" = Some (PDict d).
Proof.
  intros H%py_dict_unpack_Ok. destruct (o !! "spec"); simpl in H; by subst.
Qed.


Lemma RuntimeDBT_build_eq (function task run fs ts rs : dict) (w : W) :
  function !! "spec" = Some (PDict fs) →
  task !! "spec" = Some (PDict ts) →
  run !! "spec" = Some (PDict rs) →
  RuntimeDBT_build function task run w = (w, Ok (PDict (rs ∪ (ts ∪ fs)))).
Proof.
  intros Hf Ht Hr. unfold RuntimeDBT_build, bind, lift, ret.
  by rewrite Hf, Ht, Hr.
Qed.

Lemma RuntimeDBT_build_Ok (function task run : dict) (w w' : W) v :
  RuntimeDBT_build function task run w = (w', Ok v) →
  ∃ fs ts rs,
    function !! "spec" = Some (PDict fs)
    ∧ task !! "spec" = Some (PDict ts)
    ∧ run !! "spec" = Some (PDict rs)
    ∧ v = PDict (rs ∪ (ts ∪ fs)).
Proof.
  unfold RuntimeDBT_build. intros H.
  apply bind_Ok_inv in H as (w1 & fs & [-> Hf]%lift_inv & H).
  apply bind_Ok_inv in H as (w2 & ts & [-> Ht]%lift_inv & H).
  apply bind_Ok_inv in H as (w3 & rs & [-> Hr]%lift_inv & H).
  unfold ret in H. injection H as <- <-.
  exists fs, ts, rs. repeat split; by try apply spec_lookup_Ok.
Qed.


End DbtProtocolClaims.


Lemma to_dict0_shows_spec_status : to_dict_shows_spec_status (H := run_env0).
Proof. intros b r. split; reflexivity. Qed.




(* ===================================================================== *)
(** * Part III: further properties of the code                            *)
(* ===================================================================== *)

(** ** More about computations *)

Section MoreMonadFacts.
Context {S A B : Type}.

Lemma bind_Raise_inv (m : M S A) (k : A → M S B) s s2 e :
  bind m k s = (s2, Raise e) →
  m s = (s2, Raise e) ∨ ∃ s1 a, m s = (s1, Ok a) ∧ k a s1 = (s2, Raise e).
Proof.
  unfold bind. destruct (m s) as [s1 [a|e']]; [eauto|].
  intros [= <- <-]. by left.
Qed.

Lemma bind_inv (m : M S A) (k : A → M S B) s s2 x :
  bind m k s = (s2, x) →
  (∃ e, m s = (s2, Raise e) ∧ x = Raise e)
  ∨ ∃ s1 a, m s = (s1, Ok a) ∧ k a s1 = (s2, x).
Proof.
  unfold bind. destruct (m s) as [s1 [a|e']]; [eauto|].
  intros [= <- <-]. left. eauto.
Qed.

End MoreMonadFacts.

(** ** Saving a Run *)

Section SaveFacts.
Context {W : Type} `{env : RunEnv W}.

Lemma set_id_same r : set_id (run_id r) r = r.
Proof. by destruct r. Qed.

(** What [save] leaves of the object, case by case. *)
Lemma Run_save_cases uuid r w r' w' (x : result dict) :
  Run_save uuid (r, w) = ((r', w'), x) →
  r' = r
  ∨ (uuid ≠ PNone ∧ r' = set_id uuid r)
  ∨ (uuid = PNone ∧ ∃ resp v, x = Ok resp ∧ resp !! "id" = Some v
                              ∧ v ≠ PNone ∧ r' = set_id v r).
Proof.
  unfold Run_save, bind, get_self, raise, modify_self, ret. simpl.
  destruct (run_local r); [intros [= <- <- <-]; by left|].
  destruct uuid; rewrite in_world_eq; simpl;
    try (intros [= <- <- <-]; right; left; done).
  destruct (create_object _ _ w) as [w1 [resp|e]]; simpl;
    [|intros [= <- <- <-]; by left].
  destruct (resp !! "id") as [v|] eqn:Hid; simpl;
    [|intros [= <- <- <-]; by left].
  destruct v; intros [= <- <- <-]; try (by left);
    right; right; (split; [done|]); eauto 10.
Qed.

(** X1: whatever [save] returns or raises, it changes nothing of the Run
    but its id: kind, metadata, spec, status and the local flag are the
    ones it had. *)
Theorem Run_save_only_id (uuid : pyval) (r r' : Run) (w w' : W)
    (x : result dict) :
  Run_save uuid (r, w) = ((r', w'), x) → r' = set_id (run_id r') r.
Proof.
  intros [->|[[_ ->]|(_ & resp & v & _ & _ & _ & ->)]]%Run_save_cases.
  - by rewrite set_id_same.
  - done.
  - done.
Qed.

(** X2: [save(uuid)] with an id assigns [self.id = uuid] before it calls
    the backend, and sends the object as it was before the assignment: when
    [update_object] raises, [save] raises the same error and the Run has the
    new id all the same. *)
Theorem Run_save_assigns_id_first (uuid : pyval) (r : Run) (w w' : W) (e : exn) :
  run_local r = false → uuid ≠ PNone →
  update_object (save_payload r) (api_base_update RUNS uuid) w = (w', Raise e) →
  Run_save uuid (r, w) = ((set_id uuid r, w'), Raise e).
Proof.
  intros Hl Hid Hupd. unfold Run_save, bind, get_self, modify_self. simpl.
  rewrite Hl. destruct uuid; try done; rewrite in_world_eq; simpl;
    by rewrite Hupd.
Qed.

(** X3: [save(None)] creates the object: when the response of the backend
    has an id that is not [None], the Run takes it; when it has none, the
    Run keeps its own. *)
Theorem Run_save_create_adopts_id (r : Run) (w w' : W) (resp : dict) :
  run_local r = false →
  create_object (save_payload r) (api_base_create RUNS) w = (w', Ok resp) →
  Run_save PNone (r, w)
  = ((match resp !! "id" with
      | Some PNone | None => r
      | Some v => set_id v r
      end, w'), Ok resp).
Proof.
  intros Hl Hc. unfold Run_save, bind, get_self, modify_self, ret. simpl.
  rewrite Hl, in_world_eq, Hc. simpl.
  destruct (resp !! "id") as [[]|]; reflexivity.
Qed.

End SaveFacts.

(** ** Methods that leave the object as it is *)

Section KeepsSelf.
Context {W : Type}.

Lemma keeps_self_bind {A B} (m : M (Run * W) A) (k : A → M (Run * W) B) :
  keeps_self m → (∀ a, keeps_self (k a)) → keeps_self (bind m k).
Proof.
  intros Hm Hk r w s x H.
  apply bind_inv in H as [(e & H & _)|([r1 w1] & a & H1 & H2)].
  - by eapply Hm.
  - apply Hm in H1. simpl in H1. subst r1. by eapply Hk.
Qed.

Lemma keeps_self_ret {A} (a : A) : keeps_self (W := W) (ret a).
Proof. by intros r w s x [= <- _]. Qed.

Lemma keeps_self_raise {A} e : keeps_self (W := W) (A := A) (raise e).
Proof. by intros r w s x [= <- _]. Qed.

Lemma keeps_self_lift {A} (res : result A) : keeps_self (W := W) (lift res).
Proof. by intros r w s x [= <- _]. Qed.

Lemma keeps_self_get_self : keeps_self (W := W) get_self.
Proof. by intros r w s x [= <- _]. Qed.

Lemma keeps_self_in_world {A} (m : M W A) : keeps_self (in_world m).
Proof.
  intros r w s x. unfold in_world. simpl. destruct (m w). by intros [= <- _].
Qed.

Lemma keeps_self_try {A} (m : M (Run * W) A) (h : exn → M (Run * W) A) :
  keeps_self m → (∀ e, keeps_self (h e)) → keeps_self (try_except_Exception m h).
Proof.
  intros Hm Hh r w s x. unfold try_except_Exception.
  destruct (m (r, w)) as [[r1 w1] [a|e]] eqn:E.
  - intros [= <- _]. by apply Hm in E.
  - apply Hm in E. simpl in E. subst r1.
    destruct (is_Exception e); [apply Hh|by intros [= <- _]].
Qed.

End KeepsSelf.

Create HintDb keeps.

#[local] Hint Resolve keeps_self_ret keeps_self_raise keeps_self_lift
  keeps_self_get_self keeps_self_in_world : keeps.

Ltac keeps :=
  repeat first
    [ apply keeps_self_bind; [|intros ?]
    | apply keeps_self_try; [|intros ?]
    | solve [auto with keeps]
    | match goal with
      | |- keeps_self (match ?v with _ => _ end) => destruct v
      | |- keeps_self (if ?b then _ else _) => destruct b
      end ].

(** ** Running and building, outcome by outcome *)

Section RunOutcomes.
Context {W : Type} `{env : RunEnv W}.

Lemma Run_save_raise_self r w r' w' e :
  Run_save (run_id r) (r, w) = ((r', w'), Raise e) → r' = r.
Proof.
  intros [->|[[_ ->]|(_ & resp & v & [=] & _)]]%Run_save_cases; [done|].
  apply set_id_same.
Qed.


(** What [run] does once the runtime is resolved and its [run] has
    returned. *)
Lemma Run_run_returned local r w w1 rt v :
  Run__get_runtime (r, w) = ((r, w), Ok rt) →
  rt_run rt (to_dict true r) w = (w1, Ok v) →
  Run_run local (r, w)
  = (Run__set_status v ;; do r' <- get_self; Run_save (run_id r') ;; get_self)
      (r, w1).
Proof.
  intros Hrt Hrun. unfold Run_run.
  rewrite (bind_Ok _ _ _ _ _ Hrt).
  erewrite (bind_Ok (try_except_Exception _ _)); [reflexivity|].
  unfold try_except_Exception, bind, get_self. simpl.
  by rewrite in_world_eq, Hrun.
Qed.

(** X4: the success path of [run]: for a Run that is not local and has an
    id, when the [run] of its runtime returns a mapping and the backend
    accepts the update, that mapping is the status of the Run, the Run with
    that status is what the backend is sent, and the Run is returned. *)
Theorem Run_run_returns_status (local : bool) (r : Run) (w w1 w2 : W)
    (rt : Runtime W) (d resp : dict) :
  run_local r = false → run_id r ≠ PNone →
  Run__get_runtime (r, w) = ((r, w), Ok rt) →
  rt_run rt (to_dict true r) w = (w1, Ok (PDict d)) →
  update_object (save_payload (set_status d r)) (api_base_update RUNS (run_id r)) w1
  = (w2, Ok resp) →
  Run_run local (r, w) = ((set_status d r, w2), Ok (set_status d r)).
Proof.
  intros Hl Hid Hrt Hrun Hupd.
  rewrite (Run_run_returned local r w w1 rt _ Hrt Hrun).
  unfold bind, Run__set_status, modify_self, get_self, build_status. simpl.
  change (run_id r) with (run_id (set_status d r)) at 1.
  rewrite (Run_save_update (set_status d r) w1 Hl Hid), in_world_eq. simpl.
  by rewrite Hupd.
Qed.

(** X5: when the [run] of the runtime returns something that is not a
    mapping, [Run.run] raises [EntityError] "Status must be a dictionary.":
    the Run is unchanged and nothing is saved; the world is as the runtime
    left it. *)
Theorem Run_run_rejects_non_mapping (local : bool) (r : Run) (w w1 : W)
    (rt : Runtime W) (v : pyval) :
  Run__get_runtime (r, w) = ((r, w), Ok rt) →
  rt_run rt (to_dict true r) w = (w1, Ok v) →
  (∀ d, v ≠ PDict d) →
  Run_run local (r, w)
  = ((r, w1), Raise (Exn EntityError "Status must be a dictionary.")).
Proof.
  intros Hrt Hrun Hv.
  rewrite (Run_run_returned local r w w1 rt _ Hrt Hrun).
  unfold bind, Run__set_status.
  destruct v; try reflexivity. by destruct (Hv d).
Qed.


(** X7: when [Run.build] raises, the Run is either untouched or already
    has the merged spec and the status [{state: PENDING}]: the function and
    the task were read, the runtime was resolved, its [build] returned a
    mapping without the key [ignore_validation], and [build] assigned that
    mapping as the spec, and the status, before the save; a save that fails
    does not undo them. *)
Theorem Run_build_raise_atomic (local : bool) (r r' : Run) (w w' : W) (e : exn) :
  Run_build local (r, w) = ((r', w'), Raise e) →
  r' = r
  ∨ ∃ function task rt w1 w2 w3 d,
      Run__get_function (r, w) = ((r, w1), Ok function)
      ∧ Run__get_task (r, w1) = ((r, w2), Ok task)
      ∧ Run__get_runtime (r, w2) = ((r, w2), Ok rt)
      ∧ rt_build rt function task (to_dict false r) w2 = (w3, Ok (PDict d))
      ∧ d !! "ignore_validation" = None
      ∧ r' = set_status {[ "state" := PStr State_PENDING ]}
               (set_spec (build_spec_ignore_validation d) r).
Proof.
  unfold Run_build. intros H.
  apply bind_Raise_inv in H as [H|([r1 w1] & function & Hf & H)].
  { apply Run__get_function_self in H. by left. }
  pose proof (Run__get_function_self _ _ _ _ Hf) as E. simpl in E. subst r1.
  apply bind_Raise_inv in H as [H|([r2 w2] & task & Ht & H)].
  { apply Run__get_task_self in H. by left. }
  pose proof (Run__get_task_self _ _ _ _ Ht) as E. simpl in E. subst r2.
  apply bind_Raise_inv in H as [H|(s3 & rt & Hrt & H)].
  { rewrite Run__get_runtime_eq in H. injection H as <- _. by left. }
  pose proof Hrt as Hrt'.
  rewrite Run__get_runtime_eq in Hrt'. injection Hrt' as <- _.
  apply bind_Raise_inv in H as [H|(s4 & r4 & Hself & H)]; [done|].
  unfold get_self in Hself. injection Hself as <- <-. simpl in H.
  apply bind_Raise_inv in H as [H|([r5 w5] & new_spec & Hb & H)].
  { apply keeps_self_in_world in H. by left. }
  pose proof (keeps_self_in_world _ _ _ _ _ Hb) as E. simpl in E. subst r5.
  rewrite in_world_eq in Hb. injection Hb as Hw Hb.
  apply bind_Raise_inv in H as [H|(s6 & kwargs & [-> Hk]%lift_inv & H)].
  { apply lift_inv in H as [[= -> _] _]. by left. }
  symmetry in Hk. apply py_kwargs_Ok in Hk as ->.
  apply bind_Raise_inv in H as [H|(s6' & kwargs' & [-> Hk]%lift_inv & H)].
  { apply lift_inv in H as [[= -> _] _]. by left. }
  symmetry in Hk. apply py_keyword_once_Ok in Hk as [-> Hkw].
  apply bind_Raise_inv in H as [H|(s7 & [] & Hm & H)]; [done|].
  unfold modify_self in Hm. injection Hm as <-. simpl in H.
  apply bind_Raise_inv in H as [H|(s8 & [] & Hs & H)]; [done|].
  unfold Run__set_status, modify_self in Hs. injection Hs as <-. simpl in H.
  apply bind_Raise_inv in H as [H|(s9 & r9 & Hself & H)]; [done|].
  unfold get_self in Hself. injection Hself as <- <-. simpl in H.
  apply bind_Raise_inv in H as [H|(s10 & resp & _ & H)]; [|done].
  right. exists function, task, rt, w1, w2, w5, kwargs.
  split; [done|]. split; [done|]. split; [done|].
  split.
  { rewrite <- Hw, <- Hb.
    by destruct (rt_build rt function task (to_dict false r) w2). }
  split; [done|].
  by apply (Run_save_raise_self
              (set_status _ (set_spec (build_spec_ignore_validation kwargs) r)))
    in H.
Qed.

End RunOutcomes.

(** ** Running with the DBT runtime, outcome by outcome *)

Section DbtOutcomes.
Context {W : Type} `{env : RunEnv W} `{denv : DbtEnv W}.

(** The status that the DBT runtime returns is a mapping in state
    [COMPLETED]. *)
Lemma RuntimeDBT_run_completed (run : dict) (w w1 : W) (v : pyval) :
  RuntimeDBT_run run w = (w1, Ok v) →
  ∃ d, v = PDict d ∧ d !! "state" = Some (PStr State_COMPLETED).
Proof.
  intros (out & rest & di & tv & _ & -> & _)%RuntimeDBT_run_Ok%RuntimeDBT_transform_Ok.
  eexists. split; [done|]. by rewrite lookup_insert_eq.
Qed.

(** Once the status is set, [run] ends with that status, whether the save
    returns or raises. *)
Lemma Run_run_status_kept (d : dict) (r r2 : Run) (w1 w2 : W) (x : result Run) :
  (Run__set_status (PDict d) ;;
   do r' <- get_self; Run_save (run_id r') ;; get_self) (r, w1)
  = ((r2, w2), x) →
  run_status r2 = d.
Proof.
  unfold bind at 1. unfold Run__set_status, modify_self, build_status.
  unfold bind at 1. unfold get_self at 1. cbn [fst snd].
  unfold bind.
  destruct (Run_save (run_id (set_status d r)) (set_status d r, w1))
    as [[r3 w3] [resp|e]] eqn:Hs;
    apply Run_save_keeps in Hs as (Hst & _); unfold get_self;
    intros [= <- _ _]; by rewrite Hst.
Qed.

(** C2, as amended: with the DBT runtime, the error of a Run that is not in
    state [PENDING] is raised inside the [try] of [Run.run], not to the
    caller: for a Run that is not local, when the backend accepts the save,
    [Run.run] returns the Run with the status
    [{state: ERROR, message: "Run is not in pending state. Build it again."}].
    And however [Run.run] ends with the DBT runtime, returning or raising,
    the state of the Run is [COMPLETED] or [ERROR], unless an error that
    does not derive from [Exception] went through the [try], in which case
    the Run is as it was. *)
Theorem Run_run_DBT_states (local : bool) (r : Run) (w : W) :
  Run__get_runtime (r, w) = ((r, w), Ok RuntimeDBT) →
  (to_dict_shows_spec_status →
   run_local r = false →
   py_eq_str (status_state r) State_PENDING = false →
   ∀ w3 response,
     let r' := set_status (error_status not_pending_error) r in
     save_request r' w = (w3, Ok response) →
     Run_run local (r, w) = ((saved r' response, w3), Ok (saved r' response))
     ∧ run_status (saved r' response) = error_status not_pending_error)
  ∧ (∀ r2 w2 x,
       Run_run local (r, w) = ((r2, w2), x) →
       status_state r2 = PStr State_COMPLETED
       ∨ status_state r2 = PStr State_ERROR
       ∨ ∃ e, x = Raise e ∧ is_Exception e = false ∧ r2 = r).
Proof.
  intros Hrt. split.
  - intros Hdict Hl Hstate w3 response r' Hsave.
    destruct (Hdict true r) as [_ Hst].
    split; [|by rewrite saved_status].
    apply (Run_run_caught_saved local r w w w3 RuntimeDBT not_pending_error
             response Hl Hrt); [|done|done].
    by apply (RuntimeDBT_run_not_pending _ _ (run_status r)).
  - intros r2 w2 x H.
    destruct (rt_run RuntimeDBT (to_dict true r) w) as [w1 [v|e]] eqn:Hrun.
    + rewrite (Run_run_returned local r w w1 _ v Hrt Hrun) in H.
      apply RuntimeDBT_run_completed in Hrun as (d & -> & Hd).
      apply Run_run_status_kept in H. left.
      unfold status_state. by rewrite H, Hd.
    + destruct (is_Exception e) eqn:Hexc.
      * rewrite (Run_run_caught local r w w1 _ e Hrt Hrun Hexc) in H.
        right. left.
        assert (Hst : run_status r2 = error_status e).
        { revert H. unfold bind.
          change (run_id r) with (run_id (set_status (error_status e) r)).
          destruct (Run_save _ (set_status (error_status e) r, w1))
            as [[r3 w3] [resp|e']] eqn:Hs;
            apply Run_save_keeps in Hs as (Hst & _); unfold get_self;
            intros [= <- _ _]; by rewrite Hst. }
        unfold status_state, error_status in *. rewrite Hst.
        by rewrite lookup_insert_eq.
      * rewrite (Run_run_base_exception local r w w1 _ e Hrt Hrun Hexc) in H.
        injection H as <- _ <-. right. right. eauto.
Qed.

End DbtOutcomes.

Lemma Run_run_DBT_states_witness :
  let r := run0 scenario_task {[ "state" := PStr State_CREATED ]} false in
  let r' := set_status (error_status not_pending_error) r in
  ∃ w3,
    Run_run true (r, world0) = ((r', w3), Ok r')
    ∧ run_status r' = error_status not_pending_error
    ∧ (status_state r' = PStr State_COMPLETED
       ∨ status_state r' = PStr State_ERROR
       ∨ ∃ e, Ok r' = Raise e ∧ is_Exception e = false ∧ r' = r).
Proof.
  cbn zeta.
  set (r := run0 scenario_task {[ "state" := PStr State_CREATED ]} false).
  set (r' := set_status (error_status not_pending_error) r).
  set (u := save_request (env := run_env0) r' world0).
  destruct (Run_run_DBT_states (env := run_env0) (denv := dbt_env0)
              true r world0 eq_refl) as [HA HB].
  destruct (HA to_dict0_shows_spec_status eq_refl eq_refl u.1
              (save_payload r') eq_refl) as [Hrun Hst].
  exists u.1. split; [exact Hrun|]. split; [exact Hst|].
  exact (HB _ _ _ Hrun).
Defined.

(** C2, the claim as stated fails, in four ways.  A Run in state [CREATED]
    with the DBT runtime: [Run.run] raises nothing, it returns the Run with
    the error recorded in its status.  A Run in state [PENDING] whose
    function kind has no runtime: [Run.run] raises, and the Run is still
    [PENDING].  A Run in state [PENDING] with the DBT runtime, when dbt is
    interrupted from the keyboard: [Run.run] raises [KeyboardInterrupt],
    and the Run is still [PENDING].  A local Run in state [CREATED] with
    the DBT runtime: what [Run.run] raises is the error of [save], with the
    error of the runtime recorded in the status. *)
Lemma Run_run_not_pending_returns :
  let r := run0 scenario_task {[ "state" := PStr State_CREATED ]} false in
  let p := run0 "nope+job://ns/myfn:f1" {[ "state" := PStr State_PENDING ]} false in
  let q := mkRun (PStr "r1") "run" (mkRunMetadata "ns" ∅)
             (<["sql" := PStr "select 1"]> (spec0 scenario_task))
             {[ "state" := PStr State_PENDING ]} false in
  let interrupted := run_env2 (RuntimeDBT (denv := dbt_env_interrupted)) in
  (∃ r2 w2, Run_run (env := run_env0) true (r, world0) = ((r2, w2), Ok r2)
            ∧ run_status r2 = error_status not_pending_error)
  ∧ (∃ e, Run_run (env := run_env0) true (p, world0) = ((p, world0), Raise e)
          ∧ status_state p = PStr State_PENDING)
  ∧ (Run__get_runtime (env := interrupted) (q, world0)
     = ((q, world0), Ok (RuntimeDBT (denv := dbt_env_interrupted)))
     ∧ Run_run (env := interrupted) true (q, world0)
       = ((q, world0), Raise (Exn (BaseExceptionOnly "KeyboardInterrupt") ""))
     ∧ status_state q = PStr State_PENDING)
  ∧ (let l := run0 scenario_task {[ "state" := PStr State_CREATED ]} true in
     Run_run (env := run_env0) true (l, world0)
     = ((set_status (error_status not_pending_error) l, world0),
        Raise (Exn EntityError "Use .export() for local execution."))).
Proof.
  cbn zeta. split; [|split; [|split]].
  - eexists _, _. split; vm_compute; reflexivity.
  - eexists. split; vm_compute; reflexivity.
  - split; [reflexivity|]. split; [vm_compute; reflexivity|reflexivity].
  - vm_compute; reflexivity.
Qed.

(** ** The merged spec and the task reference *)

Section MergeFacts.
Context {W : Type} `{env : RunEnv W} `{denv : DbtEnv W}.

Lemma merge_again (fs ts rs : dict) :
  (rs ∪ (ts ∪ fs)) ∪ (ts ∪ fs) = rs ∪ (ts ∪ fs).
Proof.
  apply map_eq. intros k. rewrite !lookup_union.
  by destruct (rs !! k), (ts !! k), (fs !! k).
Qed.

(** X8: [RuntimeDBT.build] does not touch the world, and building again
    from its own result changes nothing: with the merged spec put back as
    the spec of the run, the same function and task give the same merge. *)
Theorem RuntimeDBT_build_idempotent (function task run : dict) (w w' : W)
    (v : pyval) :
  RuntimeDBT_build function task run w = (w', Ok v) →
  w' = w
  ∧ RuntimeDBT_build function task (<["spec" := v]> run) w = (w, Ok v).
Proof.
  intros H.
  assert (w' = w) as ->.
  { unfold RuntimeDBT_build in H.
    apply bind_Ok_inv in H as (w1 & fs & [-> _]%lift_inv & H).
    apply bind_Ok_inv in H as (w2 & ts & [-> _]%lift_inv & H).
    apply bind_Ok_inv in H as (w3 & rs & [-> _]%lift_inv & H).
    unfold ret in H. by injection H. }
  split; [done|].
  apply RuntimeDBT_build_Ok in H as (fs & ts & rs & Hf & Ht & Hr & ->).
  rewrite (RuntimeDBT_build_eq function task _ fs ts (rs ∪ (ts ∪ fs)))
    by (done || by rewrite lookup_insert_eq).
  by rewrite merge_again.
Qed.

Lemma parse_task_string_task_id t tid tid' ts :
  parse_task_string t tid = Ok ts →
  parse_task_string t tid'
  = Ok (mkTaskString (function_kind ts) (task_kind ts) (function_name ts)
          (function_id ts) tid').
Proof.
  unfold parse_task_string.
  destruct (py_split t "://") as [l|]; cbn [rbind]; [|done].
  destruct (unpack2 l) as [[kinds func]|]; cbn [rbind]; [|done].
  destruct (unpack2 (PyStr.split "+" kinds)) as [[k1 k2]|]; cbn [rbind]; [|done].
  destruct (py_index (PyStr.split "/" func) 1) as [seg|]; cbn [rbind]; [|done].
  destruct (unpack2 (PyStr.split ":" seg)) as [[n i]|]; cbn [rbind]; [|done].
  by intros [= <-].
Qed.

Lemma py_split_Ok v sep l : py_split v sep = Ok l → ∃ s, v = PStr s.
Proof. destruct v; try done. eauto. Qed.

(** X9: a [build] with the DBT runtime keeps the task reference of the
    Run: the task string of the run spec wins the merge, so the built Run
    parses to the same function kind, task kind, function name and function
    id, and to the same task id when the run spec had one. *)
Theorem Run_build_keeps_task_reference (local : bool) (r r' : Run) (w w' : W) :
  to_dict_shows_spec_status →
  Run__get_runtime (r, w) = ((r, w), Ok RuntimeDBT) →
  Run_build local (r, w) = ((r', w'), Ok tt) →
  ∃ ts,
    Run__parse_task_string r = Ok ts
    ∧ Run__parse_task_string r'
      = Ok (mkTaskString (function_kind ts) (task_kind ts) (function_name ts)
              (function_id ts) (spec_attr r' "task_id"))
    ∧ (is_Some (run_spec r !! "task_id") →
       spec_attr r' "task_id" = spec_attr r "task_id").
Proof.
  intros Hdict Hrt Hbuild.
  apply Run_build_Ok_inv in Hbuild
    as (f & t & rt & w1 & w2 & w3 & new_spec & _ & _ & Hrt' & Hb & Hspec & _).
  rewrite (Run__get_runtime_world _ _ w2 _ Hrt) in Hrt'.
  injection Hrt' as <-. simpl in Hb.
  apply RuntimeDBT_build_Ok in Hb as (fs & ts & rs & _ & _ & Hrs & Hv).
  destruct (Hdict false r) as [Hs _]. rewrite Hs in Hrs.
  injection Hrs as <-. injection Hv as ->.
  rewrite Run__get_runtime_eq in Hrt. injection Hrt as Hrt.
  unfold Run__parse_task_string in *.
  destruct (parse_task_string (spec_attr r "task") (spec_attr r "task_id"))
    as [parsed|] eqn:Hparse; [|done].
  exists parsed. split; [done|].
  assert (Htask : spec_attr r' "task" = spec_attr r "task").
  { unfold parse_task_string in Hparse.
    destruct (py_split (spec_attr r "task") "://") as [l|] eqn:Hsplit; [|done].
    apply py_split_Ok in Hsplit as [s Hs'].
    unfold spec_attr in *. rewrite Hspec.
    destruct (run_spec r !! "task") as [v|] eqn:Hl; [|done].
    by rewrite (lookup_union_Some_l _ _ _ _ Hl). }
  rewrite Htask. split.
  - by apply parse_task_string_task_id with (tid := spec_attr r "task_id").
  - intros [v Hv]. unfold spec_attr. rewrite Hspec, Hv.
    by rewrite (lookup_union_Some_l _ _ _ _ Hv).
Qed.

End MergeFacts.

(** ** The two decodings of the task kind *)

Section DecodingFacts.
Import PyStr.

(** X10: on a task string that [_parse_task_string] accepts and whose two
    kinds contain no [:], the decoding of [RuntimeDBT.run], the piece after
    [+] of the piece before the first [:], gives the task kind that the
    parser gives. *)
Theorem runtime_decoding_agrees (t : string) (tid : pyval) (ts : TaskString) :
  parse_task_string (PStr t) tid = Ok ts →
  no_char ":" (function_kind ts) → no_char ":" (task_kind ts) →
  ∃ kinds, split ":" t !! 0 = Some kinds
           ∧ split "+" kinds !! 1 = Some (task_kind ts).
Proof.
  intros (p & rest & -> & Hk1 & Hk2 & _)%parse_task_string_Ok_shape Hc1 Hc2.
  exists (function_kind ts +:+ "+" +:+ task_kind ts).
  unfold encode_task_string, no_char in *. split.
  - replace ((function_kind ts +:+ "+" +:+ task_kind ts +:+ "://" +:+ p +:+ "/"
              +:+ function_name ts +:+ ":" +:+ function_id ts) +:+ rest)
      with ((function_kind ts +:+ "+" +:+ task_kind ts) +:+ ":"
            +:+ ("//" +:+ p +:+ "/" +:+ function_name ts +:+ ":"
                 +:+ function_id ts +:+ rest))
      by (by rewrite !append_assoc).
    rewrite (split_char_app ":"); [done|].
    rewrite !count_char_app. simpl. lia.
  - by rewrite (split_char_app "+"), (split_char_absent "+").
Qed.

(** With a [:] in a kind the two decodings differ. *)
Example runtime_decoding_differs :
  (∃ ts, parse_task_string (PStr "a+b:c://p/n:i") (PStr "t1") = Ok ts
         ∧ task_kind ts = "b:c")
  ∧ split ":" "a+b:c://p/n:i" !! 0 = Some "a+b"
  ∧ split "+" "a+b" !! 1 = Some "b".
Proof. split; [eexists; split; reflexivity|]. split; reflexivity. Qed.

End DecodingFacts.

(** ** More about retrieval *)

Section MoreRetrieval.
Context {W : Type} `{env : RunEnv W}.

Lemma keeps_self_refresh : keeps_self Run_refresh.
Proof. unfold Run_refresh. keeps. Qed.

Lemma keeps_self_resolve {E} (lookup : pyval → M W E) entries :
  keeps_self (in_world (resolve_all lookup entries)).
Proof. apply keeps_self_in_world. Qed.

(** X11: [get_artifacts] and [get_dataitem] never change the Run, whatever
    the backend answers and whether they return or raise. *)
Theorem Run_get_results_keep_self (key : option string) (r : Run) (w : W) :
  (∀ s x, Run_get_artifacts key (r, w) = (s, x) → s.1 = r)
  ∧ (∀ s x, Run_get_dataitem key (r, w) = (s, x) → s.1 = r).
Proof.
  split; intros s x H.
  - eapply (_ : keeps_self (Run_get_artifacts key)), H.
  - eapply (_ : keeps_self (Run_get_dataitem key)), H.
  Unshelve.
  + unfold Run_get_artifacts. pose proof keeps_self_refresh. keeps.
  + unfold Run_get_dataitem. pose proof keeps_self_refresh. keeps.
Qed.

(** X12: on a local Run [get_artifacts] and [get_dataitem] raise the
    [EntityError] of [refresh], with or without a key, and the backend is
    not read. *)
Theorem Run_get_results_local (key : option string) (r : Run) (w : W) :
  run_local r = true →
  Run_get_artifacts key (r, w)
  = ((r, w), Raise (Exn EntityError "Cannot refresh local run."))
  ∧ Run_get_dataitem key (r, w)
    = ((r, w), Raise (Exn EntityError "Cannot refresh local run.")).
Proof.
  intros Hl.
  assert (Run_refresh (r, w)
          = ((r, w), Raise (Exn EntityError "Cannot refresh local run."))) as H.
  { unfold Run_refresh, bind, get_self, raise. simpl. by rewrite Hl. }
  split; [unfold Run_get_artifacts|unfold Run_get_dataitem];
    by rewrite (bind_Raise _ _ _ _ _ H).
Qed.

(** X13: the first entry with the key decides: when it has no id, or the
    id [None], [get_artifacts] raises the not-found error, whatever the
    entries after it are, also when one of them has the key and an id. *)
Theorem Run_get_artifacts_first_entry_without_id (r : Run) (w w1 : W)
    (resp st d : dict) (k : string) (pre post : list pyval) :
  Run_refresh (r, w) = ((r, w1), Ok resp) →
  default (PDict ∅) (resp !! "status") = PDict st →
  st !! "artifacts" = Some (PList (pre ++ PDict d :: post)) →
  no_entry_with_key k pre →
  d !! "key" = Some (PStr k) →
  default PNone (d !! "id") = PNone →
  Run_get_artifacts (Some k) (r, w)
  = ((r, w1),
     Raise (Exn EntityError ("No artifact found with key '" +:+ k +:+ "'."))).
Proof.
  intros Hrefresh Hst Hentries Hpre Hkey Hid.
  unfold Run_get_artifacts. rewrite (bind_Ok _ _ _ _ _ Hrefresh).
  unfold bind at 1. unfold lift at 1. cbn [py_get_default]. rewrite Hst.
  unfold bind at 1. unfold lift at 1. cbn [py_get].
  rewrite Hentries. cbn [default from_option id].
  unfold bind at 1. unfold lift at 1. cbn [py_iter].
  unfold bind at 1. unfold lift at 1.
  rewrite (next_id_found k pre d post Hpre Hkey), Hid. reflexivity.
Qed.

End MoreRetrieval.

(** ** The results of dbt *)

Section ResultFacts.
Context {W : Type} `{denv : DbtEnv W}.

(** X14: [validate_results], for a project that is a string, accepts
    exactly the results whose last entry has the status [success], the
    package name of the project with [-] replaced by [_], and the name of
    the output; it returns that last entry. *)
Theorem validate_results_Ok_iff (rr : dbtRunnerResult) (output p : string)
    (res : RunResult) :
  validate_results rr output (PStr p) = Ok res
  ↔ last (dbt_result rr) = Some res
    ∧ status_value res = "success"
    ∧ package_name (node res) = PyStr.replace "-" "_" p
    ∧ node_name (node res) = output.
Proof.
  unfold validate_results. cbn [py_replace rbind].
  destruct (last (dbt_result rr)) as [res'|].
  2:{ split; [done|]. by intros [[=] _]. }
  case_bool_decide as H1; simpl.
  2:{ split; [done|]. by intros ([= ->] & ? & _). }
  case_bool_decide as H2; simpl.
  2:{ split; [done|]. by intros ([= ->] & _ & ? & _). }
  case_bool_decide as H3; simpl.
  2:{ split; [done|]. by intros ([= ->] & _ & _ & ?). }
  split.
  - by intros [= <-].
  - by intros ([= ->] & _).
Qed.

(** The loop of [get_timings] keeps the last entry of each name. *)
Lemma select_timings_last entries c e :
  select_timings entries c e
  = (from_option Some c
       (last (filter (λ x, timing_name x = "compile") entries)),
     from_option Some e
       (last (filter (λ x, timing_name x = "execute") entries))).
Proof.
  revert c e. induction entries as [|x l IH]; intros c e; [done|].
  cbn [select_timings]. rewrite !filter_cons.
  destruct (decide (timing_name x = "compile")) as [Hc|Hc].
  - rewrite bool_decide_true by done.
    destruct (decide (timing_name x = "execute")) as [He|He]; [congruence|].
    rewrite IH. f_equal.
    destruct (filter (λ x, timing_name x = "compile") l) as [|y l'];
      [reflexivity|].
    rewrite last_cons_cons.
    destruct (last (y :: l')) eqn:E; [done|]. by apply last_None in E.
  - rewrite bool_decide_false by done.
    destruct (decide (timing_name x = "execute")) as [He|He].
    + rewrite bool_decide_true by done. rewrite IH. f_equal.
      destruct (filter (λ x, timing_name x = "execute") l) as [|y l'];
        [reflexivity|].
      rewrite last_cons_cons.
      destruct (last (y :: l')) eqn:E; [done|]. by apply last_None in E.
    + rewrite bool_decide_false by done. apply IH.
Qed.

(** X15: [get_timings] reads the last entry named [compile] and the last
    entry named [execute], earlier entries of the same names are ignored;
    it returns the four timestamps exactly when both entries exist and have
    both their timestamps. *)
Theorem get_timings_Ok_iff (res : RunResult) (t : dict) :
  get_timings res = Ok t
  ↔ ∃ c e cs cc es ec,
      last (filter (λ x, timing_name x = "compile") (timing res)) = Some c
      ∧ last (filter (λ x, timing_name x = "execute") (timing res)) = Some e
      ∧ started_at c = Some cs ∧ completed_at c = Some cc
      ∧ started_at e = Some es ∧ completed_at e = Some ec
      ∧ t = {[ "timing" := PDict
                (<["compile" := PDict
                     (<["started_at" := PStr (isoformat cs)]>
                     (<["completed_at" := PStr (isoformat cc)]> ∅))]>
                (<["execute" := PDict
                     (<["started_at" := PStr (isoformat es)]>
                     (<["completed_at" := PStr (isoformat ec)]> ∅))]> ∅)) ]}.
Proof.
  unfold get_timings, bare_raise. rewrite select_timings_last.
  destruct (last (filter (λ x, timing_name x = "compile") (timing res)))
    as [c|]; cbn [from_option];
    [|split; [done|by intros (? & ? & ? & ? & ? & ? & [=] & _)]].
  destruct (last (filter (λ x, timing_name x = "execute") (timing res)))
    as [e|]; cbn [from_option];
    [|split; [done|by intros (? & ? & ? & ? & ? & ? & _ & [=] & _)]].
  split.
  - destruct (started_at e) as [es|] eqn:E1; [|done].
    destruct (completed_at e) as [ec|] eqn:E2; [|done].
    destruct (started_at c) as [cs|] eqn:E3; [|done].
    destruct (completed_at c) as [cc|] eqn:E4; [|done].
    intros [= <-]. exists c, e, cs, cc, es, ec. done.
  - intros (c' & e' & cs & cc & es & ec & [= <-] & [= <-]
            & -> & -> & -> & -> & ->). done.
Qed.

Lemma reraise_as_cases {A} (r : result A) e' :
  (∀ e, r = Raise e → is_Exception e = true) →
  (∃ a, reraise_as r e' = Ok a ∧ r = Ok a) ∨ reraise_as r e' = Raise e'.
Proof.
  intros H. destruct r as [a|e]; simpl; [eauto|].
  rewrite (H e eq_refl). by right.
Qed.

(** X16: once the results are validated, [parse_results] either returns
    parsed results named after the output, or raises [RuntimeError]
    "Something got wrong during results parsing.": every exception of the
    extraction is replaced by that one (here [encode_string] raises
    exceptions that derive from [Exception] only). *)
Theorem parse_results_after_validation (rr : dbtRunnerResult) (output : string)
    (project : pyval) (res : RunResult) :
  validate_results rr output project = Ok res →
  (∀ s e, encode_string s = Raise e → is_Exception e = true) →
  (∃ pr, parse_results rr output project = Ok pr ∧ pr_name pr = output
         ∧ get_path res = Ok (pr_path pr)
         ∧ get_timings res = Ok (pr_timings pr))
  ∨ parse_results rr output project
    = Raise (Exn RuntimeError "Something got wrong during results parsing.").
Proof.
  intros Hval Henc. unfold parse_results. rewrite Hval. cbn [rbind].
  assert (Hname : node_name (node res) = output).
  { unfold validate_results in Hval.
    destruct (last (dbt_result rr)) as [res'|]; [|done].
    destruct (negb (bool_decide (status_value res' = "success"))); [done|].
    destruct (py_replace project "-" "_") as [pname|]; cbn [rbind] in Hval;
      [|done].
    destruct (negb (bool_decide (package_name (node res') = pname))); [done|].
    destruct (negb (bool_decide (node_name (node res') = output))) eqn:E;
      [done|].
    injection Hval as <-. by apply negb_false_iff, bool_decide_eq_true in E. }
  match goal with
  | |- context [reraise_as ?r ?e'] => set (body := r); set (err := e')
  end.
  assert (Hexc : ∀ e, body = Raise e → is_Exception e = true).
  { intros e He. subst body.
    destruct (get_path res) as [path|e1] eqn:E1; cbn [rbind] in He.
    2:{ injection He as <-. unfold get_path in E1.
        destruct (relation_name (node res)); by simplify_eq/=. }
    unfold get_raw_code, get_compiled_code in He.
    destruct (encode_string (py_str (raw_code (node res)))) as [raw|e2] eqn:E2;
      cbn [rbind] in He; [|injection He as <-; by eapply Henc].
    destruct (encode_string (py_str (compiled_code (node res))))
      as [compiled|e3] eqn:E3;
      cbn [rbind] in He; [|injection He as <-; by eapply Henc].
    destruct (get_timings res) as [t|e4] eqn:E4; cbn [rbind] in He; [done|].
    injection He as <-. unfold get_timings, bare_raise in E4.
    repeat case_match; by simplify_eq. }
  destruct (reraise_as_cases body err Hexc) as [(pr & Hre & Hr)|Hre];
    rewrite Hre; [left|by right].
  exists pr. split; [done|]. subst body.
  apply rbind_Ok_inv in Hr as (path & Hp & Hr).
  apply rbind_Ok_inv in Hr as (raw & _ & Hr).
  apply rbind_Ok_inv in Hr as (compiled & _ & Hr).
  apply rbind_Ok_inv in Hr as (t & Ht & Hr).
  injection Hr as <-. done.
Qed.

End ResultFacts.

(** ** The path of the output table *)

Section PathFacts.
Import PyStr.

Lemma count_char_join c sep l :
  count_char c (join sep l)
  = sum_list (count_char c <$> l) + (length l - 1) * count_char c sep.
Proof.
  induction l as [|x [|y l] IH]; [done|simpl; unfold id; lia|].
  rewrite join_cons by done. rewrite !count_char_app, IH.
  rewrite !fmap_cons. cbn [sum_list sum_list_with length].
  replace (S (S (length l)) - 1) with (S (length l)) by lia.
  replace (S (length l) - 1) with (length l) by lia.
  rewrite Nat.mul_succ_l. unfold id. lia.
Qed.

Lemma sum_list_pieces c (l : list string) :
  Forall (λ x, count_char c x = 0) l → sum_list (count_char c <$> l) = 0.
Proof.
  induction 1 as [|x l Hx _ IH]; [done|].
  rewrite fmap_cons. cbn [sum_list sum_list_with]. rewrite IH. unfold id. lia.
Qed.

(** Deleting a character leaves none of it. *)
Lemma replace_char_deletes c s : count_char c (replace (String c "") "" s) = 0.
Proof.
  unfold replace. rewrite count_char_join.
  rewrite sum_list_pieces by apply split_char_pieces. simpl. lia.
Qed.

(** Replacing a character by another one leaves none of it, and adds none
    of a third. *)
Lemma replace_char_counts c c' x s :
  c' ≠ c →
  count_char c (replace (String c "") (String c' "") s) = 0
  ∧ (x ≠ c → x ≠ c' →
     count_char x (replace (String c "") (String c' "") s) = count_char x s).
Proof.
  intros Hne. unfold replace. split.
  - rewrite count_char_join.
    rewrite sum_list_pieces by apply split_char_pieces.
    cbn [count_char]. apply not_eq_sym, char_eqb_neq in Hne as ->.
    rewrite Nat.mul_0_r. done.
  - intros Hx Hx'.
    rewrite <- (join_split (String c "") s) at 2 by done.
    rewrite !count_char_join. cbn [count_char].
    apply char_eqb_neq in Hx as ->. apply char_eqb_neq in Hx' as ->. done.
Qed.

End PathFacts.

Section PathClaims.
Context {W : Type} `{denv : DbtEnv W}.

(** X17: the path that [get_path] makes of the relation name is
    [sql://postgres/] followed by the name without its double quotes and
    with [/] for every [.]: what follows the prefix contains neither a dot
    nor a double quote. *)
Theorem get_path_shape (res : RunResult) (p : string) :
  get_path res = Ok p →
  ∃ name c,
    relation_name (node res) = PStr name
    ∧ p = "sql://postgres/" +:+ c
    ∧ c = PyStr.replace "." "/" (PyStr.replace dq "" name)
    ∧ no_char "." c ∧ no_char "034" c.
Proof.
  unfold get_path. destruct (relation_name (node res)) as [| | |name| |];
    try done.
  cbn [py_replace rbind]. intros [= <-].
  exists name, (PyStr.replace "." "/" (PyStr.replace dq "" name)).
  split; [done|]. split; [done|]. split; [done|]. unfold no_char.
  destruct (replace_char_counts "." "/" "034" (PyStr.replace dq "" name))
    as [Hdot Hdq]; [done|].
  split; [done|]. rewrite Hdq by done. apply replace_char_deletes.
Qed.

End PathClaims.

(** ** The inputs and the outputs of a transform *)

Section TransformFacts.
Context {W : Type} `{denv : DbtEnv W}.

Lemma materialize_inputs_materialized project l w w' :
  materialized project l w w' →
  materialize_inputs l project w = (w', Ok tt).
Proof.
  induction 1 as [|name rest di w w1 w2 w3 Hget Hwrite _ IH]; [done|].
  cbn [materialize_inputs].
  erewrite (bind_Ok (try_except_Exception _ _)); last first.
  { unfold try_except_Exception. by rewrite Hget. }
  by rewrite (bind_Ok _ _ _ _ _ Hwrite).
Qed.

(** X18: [materialize_inputs] stops at the first input whose dataitem is
    not found: the inputs before it have been written, the error is
    [RuntimeError] "Dataitem <name> not found in project <project>", and the
    inputs after it are not looked at. *)
Theorem materialize_inputs_stops (project name : pyval) (pre post : list pyval)
    (w w1 w2 : W) (e : exn) :
  materialized project pre w w1 →
  get_dataitem project name w1 = (w2, Raise e) →
  is_Exception e = true →
  materialize_inputs (pre ++ name :: post) project w
  = (w2, Raise (Exn RuntimeError
                  ("Dataitem " +:+ py_str name +:+ " not found in project "
                   +:+ py_str project))).
Proof.
  intros Hpre Hget Hexc.
  induction Hpre as [|n rest di w w1 w2' w3 Hg Hw _ IH].
  - cbn [app materialize_inputs]. apply bind_Raise.
    unfold try_except_Exception. by rewrite Hget, Hexc.
  - cbn [app materialize_inputs].
    erewrite (bind_Ok (try_except_Exception _ _)); last first.
    { unfold try_except_Exception. by rewrite Hg. }
    rewrite (bind_Ok _ _ _ _ _ Hw). by apply IH.
Qed.

(** X19: a transform whose run declares no output fails with the
    [IndexError] of [outputs[0]], and only after the inputs have been
    materialized. *)
Theorem RuntimeDBT_transform_no_outputs (run : dict) (l : list pyval) (w w1 : W) :
  spec_dataitems (default PNone (run !! "spec")) "inputs" = Ok (PList l) →
  materialized (default PNone (run !! "project")) l w w1 →
  spec_dataitems (default PNone (run !! "spec")) "outputs" = Ok (PList []) →
  RuntimeDBT_transform run w
  = (w1, Raise (Exn IndexError "list index out of range")).
Proof.
  intros Hin Hmat Hout. unfold RuntimeDBT_transform. cbn zeta.
  rewrite Hin, Hout. unfold bind at 1. unfold lift at 1.
  erewrite (bind_Ok (parse_inputs _ _)); last first.
  { unfold parse_inputs.
    rewrite (bind_Ok _ _ _ _ _ (materialize_inputs_materialized _ _ _ _ Hmat)).
    reflexivity. }
  reflexivity.
Qed.

(** X20: the status that [transform] returns has the keys [state],
    [timing] and [dataitems], and no other; in particular no [message]. *)
Theorem RuntimeDBT_transform_keys (run d : dict) (w w' : W) (k : string) :
  RuntimeDBT_transform run w = (w', Ok (PDict d)) →
  is_Some (d !! k) ↔ k = "state" ∨ k = "timing" ∨ k = "dataitems".
Proof.
  intros (out & rest & di & tv & _ & [= ->] & _)%RuntimeDBT_transform_Ok.
  unfold get_dataitem_info. rewrite <- elem_of_dom.
  rewrite dom_insert_L, dom_union_L, !dom_singleton_L. set_solver.
Qed.

End TransformFacts.

(** ** A Run from a dictionary *)

Section FromDictFacts.
Context {W : Type} `{builders : RunBuilders W}.

(** X21: [_parse_dict] asks for [project], [task_id] and [task]: when one
    of them is missing or [None] it raises [EntityError] before any builder
    is called. *)
Theorem Run__parse_dict_mandatory (obj : dict) (w : W) :
  is_None (default PNone (obj !! "project")) = true
  ∨ is_None (default PNone (obj !! "task_id")) = true
  ∨ is_None (default PNone (obj !! "task")) = true →
  Run__parse_dict obj w
  = (w, Raise (Exn EntityError "Project, task or task_id are not specified.")).
Proof.
  intros H. unfold Run__parse_dict. cbn zeta.
  destruct H as [-> | [-> | ->]]; rewrite ?orb_true_r; reflexivity.
Qed.

(** X22: [from_dict] never returns a Run.  The dictionary that
    [_parse_dict] returns has the keys [project], [task_id] and [task],
    which [Run.__init__] does not take: when [_parse_dict] returns,
    the call of the class raises [TypeError]. *)
Theorem Run_from_dict_raises (obj : dict) (w : W) :
  (∀ s r, Run_from_dict obj w ≠ (s, Ok r))
  ∧ (∀ w' parsed, Run__parse_dict obj w = (w', Ok parsed) →
       ∃ message, Run_from_dict obj w = (w', Raise (Exn TypeError message))).
Proof.
  split.
  - intros s r H. unfold Run_from_dict in H.
    apply bind_Ok_inv in H as (w1 & parsed & _ & H). done.
  - intros w' parsed H. unfold Run_from_dict.
    rewrite (bind_Ok _ _ _ _ _ H). eexists. reflexivity.
Qed.

(** X23: when the dictionary has a [spec], the spec of the parsed Run is
    built from it alone: the [task] at the top of the dictionary is checked
    for presence and handed on, and changing it changes nothing else. *)
Theorem Run__parse_dict_ignores_task (obj : dict) (w w' : W)
    (parsed : ParsedDict) (t : pyval) :
  is_None (default PNone (obj !! "spec")) = false →
  is_None t = false →
  Run__parse_dict obj w = (w', Ok parsed) →
  Run__parse_dict (<["task" := t]> obj) w
  = (w', Ok (mkParsedDict (pd_uuid parsed) (pd_kind parsed) (pd_metadata parsed)
               (pd_spec parsed) (pd_status parsed) (pd_project parsed)
               (pd_task_id parsed) t)).
Proof.
  intros Hspec Ht. unfold Run__parse_dict. cbn zeta.
  rewrite lookup_insert_eq. rewrite !lookup_insert_ne by done.
  change (default PNone (Some t)) with t. rewrite Ht, orb_false_r.
  set (project := default PNone (obj !! "project")).
  set (task_id := default PNone (obj !! "task_id")).
  set (task := default PNone (obj !! "task")).
  destruct (is_None project); [done|].
  destruct (is_None task_id); [done|].
  destruct (is_None task); [done|]. cbn [orb].
  intros H.
  apply bind_Ok_inv in H as (w1 & uuid & H1 & H).
  rewrite (bind_Ok _ _ _ _ _ H1).
  apply bind_Ok_inv in H as (w2 & kind & H2 & H).
  rewrite (bind_Ok _ _ _ _ _ H2).
  apply bind_Ok_inv in H as (w3 & mk & H3 & H).
  rewrite (bind_Ok _ _ _ _ _ H3).
  apply bind_Ok_inv in H as (w4 & md & H4 & H).
  rewrite (bind_Ok _ _ _ _ _ H4).
  destruct (default PNone (obj !! "spec")) as [| | | | |sp] eqn:Hsp; try done;
    cbn [if_not_None] in *.
  all: apply bind_Ok_inv in H as (w5 & sk & H5 & H);
    rewrite (bind_Ok _ _ _ _ _ H5);
    apply bind_Ok_inv in H as (w6 & spec & H6 & H);
    rewrite (bind_Ok _ _ _ _ _ H6);
    apply bind_Ok_inv in H as (w7 & stk & H7 & H);
    rewrite (bind_Ok _ _ _ _ _ H7);
    unfold ret in *; by injection H as <- <-.
Qed.

End FromDictFacts.

(** ** The further properties on the example worlds *)

Lemma Run_save_only_id_witness :
  let env := run_env1 backend_new_id send0 in
  let r := run0 scenario_task ∅ false in
  let r' := (Run_save (env := env) PNone (r, world0)).1.1 in
  run_id r' = PStr "b1" ∧ r' = set_id (run_id r') r.
Proof.
  cbn zeta. split; [reflexivity|].
  set (env := run_env1 backend_new_id send0).
  set (r := run0 scenario_task ∅ false).
  set (out := Run_save (env := env) PNone (r, world0)).
  apply (Run_save_only_id (env := env) PNone r out.1.1 world0 out.1.2 out.2).
  reflexivity.
Defined.

Lemma Run_save_assigns_id_first_witness :
  Run_save (env := run_env1 send0 backend_down) (PStr "r2")
    (run0 scenario_task ∅ false, world0)
  = ((set_id (PStr "r2") (run0 scenario_task ∅ false), world0),
     Raise (Exn (OtherException "BackendError") "connection refused")).
Proof.
  apply (Run_save_assigns_id_first (env := run_env1 send0 backend_down));
    [reflexivity|done|reflexivity].
Defined.

Lemma Run_save_create_adopts_id_witness :
  ∃ w' resp,
    Run_save (env := run_env1 backend_new_id send0) PNone
      (run0 scenario_task ∅ false, world0)
    = ((set_id (PStr "b1") (run0 scenario_task ∅ false), w'), Ok resp).
Proof.
  set (env := run_env1 backend_new_id send0).
  set (r := run0 scenario_task ∅ false).
  set (c := backend_new_id (save_payload (env := env) r)
              (api_base_create RUNS) world0).
  exists c.1, (<["id" := PStr "b1"]> (save_payload (env := env) r)).
  apply (Run_save_create_adopts_id (env := env) r world0 c.1
           (<["id" := PStr "b1"]> (save_payload (env := env) r))
           eq_refl eq_refl).
Defined.

Lemma Run_run_returns_status_witness :
  let r := mkRun (PStr "r1") "run" (mkRunMetadata "ns" ∅)
             (<["sql" := PStr "select 1"]> (spec0 scenario_task))
             {[ "state" := PStr State_PENDING ]} false in
  let out := RuntimeDBT_run (to_dict0 true r) world0 in
  let d := match out.2 with Ok (PDict d) => d | _ => ∅ end in
  d !! "state" = Some (PStr State_COMPLETED)
  ∧ ∃ w2, Run_run true (r, world0) = ((set_status d r, w2), Ok (set_status d r)).
Proof.
  cbn zeta.
  set (r := mkRun (PStr "r1") "run" (mkRunMetadata "ns" ∅)
              (<["sql" := PStr "select 1"]> (spec0 scenario_task))
              {[ "state" := PStr State_PENDING ]} false).
  set (out := RuntimeDBT_run (to_dict0 true r) world0).
  set (d := match out.2 with Ok (PDict d) => d | _ => ∅ end).
  set (u := send0 (save_payload (set_status d r))
              (api_base_update RUNS (run_id r)) out.1).
  split; [vm_compute; reflexivity|]. exists u.1.
  apply (Run_run_returns_status (env := run_env0) true r world0 out.1 u.1
           (RuntimeDBT (denv := dbt_env0)) d (save_payload (set_status d r))
           eq_refl);
    [done|reflexivity|vm_compute; reflexivity|reflexivity].
Defined.

Lemma Run_run_rejects_non_mapping_witness :
  Run_run (env := run_env2 (returning_runtime PNone)) true
    (run0 scenario_task ∅ false, world0)
  = ((run0 scenario_task ∅ false, world0),
     Raise (Exn EntityError "Status must be a dictionary.")).
Proof.
  apply (Run_run_rejects_non_mapping (env := run_env2 (returning_runtime PNone))
           true _ world0 world0 (returning_runtime PNone) PNone);
    [reflexivity|reflexivity|done].
Defined.


Lemma Run_build_raise_atomic_witness :
  let r := run0 scenario_task ∅ true in
  let r' := (Run_build true (r, world0)).1.1 in
  status_state r' = PStr State_PENDING
  ∧ (r' = r
     ∨ ∃ function task rt w1 w2 w3 d,
         Run__get_function (r, world0) = ((r, w1), Ok function)
         ∧ Run__get_task (r, w1) = ((r, w2), Ok task)
         ∧ Run__get_runtime (r, w2) = ((r, w2), Ok rt)
         ∧ rt_build rt function task (to_dict false r) w2 = (w3, Ok (PDict d))
         ∧ d !! "ignore_validation" = None
         ∧ r' = set_status {[ "state" := PStr State_PENDING ]}
                  (set_spec (build_spec_ignore_validation d) r)).
Proof.
  cbn zeta. split; [vm_compute; reflexivity|].
  set (r := run0 scenario_task ∅ true).
  set (out := Run_build (env := run_env0) true (r, world0)).
  apply (Run_build_raise_atomic (env := run_env0) true r out.1.1 world0 out.1.2
           (Exn EntityError "Use .export() for local execution.")).
  vm_compute; reflexivity.
Defined.

Lemma RuntimeDBT_build_idempotent_witness :
  let run := to_dict0 true (run0 scenario_task ∅ false) in
  let v := match (RuntimeDBT_build function0 task0 run world0).2 with
           | Ok v => v
           | Raise _ => PNone
           end in
  py_get v "sql" = Ok (PStr "select 1")
  ∧ RuntimeDBT_build function0 task0 (<["spec" := v]> run) world0
    = (world0, Ok v).
Proof.
  cbn zeta. split; [vm_compute; reflexivity|].
  apply (RuntimeDBT_build_idempotent (W := World0) function0 task0
           (to_dict0 true (run0 scenario_task ∅ false)) world0 world0).
  reflexivity.
Defined.

Lemma Run_build_keeps_task_reference_witness :
  let r := run0 scenario_task ∅ false in
  let r' := (Run_build true (r, world0)).1.1 in
  ∃ ts,
    Run__parse_task_string r = Ok ts
    ∧ Run__parse_task_string r'
      = Ok (mkTaskString (function_kind ts) (task_kind ts) (function_name ts)
              (function_id ts) (spec_attr r' "task_id"))
    ∧ (is_Some (run_spec r !! "task_id") →
       spec_attr r' "task_id" = spec_attr r "task_id").
Proof.
  cbn zeta.
  set (r := run0 scenario_task ∅ false).
  set (out := Run_build (env := run_env0) true (r, world0)).
  apply (Run_build_keeps_task_reference (env := run_env0) true r out.1.1
           world0 out.1.2 to_dict0_shows_spec_status eq_refl).
  vm_compute; reflexivity.
Defined.

Lemma runtime_decoding_agrees_witness :
  ∃ kinds, PyStr.split ":" scenario_task !! 0 = Some kinds
           ∧ PyStr.split "+" kinds !! 1 = Some "transform".
Proof.
  apply (runtime_decoding_agrees scenario_task (PStr "t1")
           (mkTaskString "transform" "transform" "myfn" "f1" (PStr "t1"))
           eq_refl eq_refl eq_refl).
Defined.

Lemma Run_get_results_keep_self_witness :
  let r := run0 scenario_task ∅ false in
  (Run_get_artifacts (Some "out") (r, world_out)).1.1 = r.
Proof.
  cbn zeta.
  set (r := run0 scenario_task ∅ false).
  set (out := Run_get_artifacts (env := run_env0) (Some "out") (r, world_out)).
  apply (proj1 (Run_get_results_keep_self (env := run_env0) (Some "out")
                  r world_out) out.1 out.2).
  reflexivity.
Defined.

Lemma Run_get_results_local_witness :
  let r := run0 scenario_task ∅ true in
  Run_get_artifacts None (r, world_out)
  = ((r, world_out), Raise (Exn EntityError "Cannot refresh local run.")).
Proof.
  cbn zeta.
  apply (proj1 (Run_get_results_local (env := run_env0) None
                  (run0 scenario_task ∅ true) world_out eq_refl)).
Defined.

Lemma Run_get_artifacts_first_entry_without_id_witness :
  let r := run0 scenario_task ∅ false in
  Run_get_artifacts (Some "out") (r, world_two_entries)
  = ((r, world_two_entries),
     Raise (Exn EntityError "No artifact found with key 'out'.")).
Proof.
  cbn zeta.
  apply (Run_get_artifacts_first_entry_without_id (env := run_env0)
           (run0 scenario_task ∅ false) world_two_entries world_two_entries
           (w_run world_two_entries)
           {[ "artifacts" :=
                PList [ PDict {[ "key" := PStr "out" ]};
                        PDict (<["key" := PStr "out"]> (<["id" := PStr "a1"]> ∅)) ] ]}
           {[ "key" := PStr "out" ]} "out" []
           [PDict (<["key" := PStr "out"]> (<["id" := PStr "a1"]> ∅))]);
    try reflexivity.
  constructor.
Defined.

Lemma validate_results_Ok_iff_witness :
  validate_results (mkDbtRunnerResult [result_two_compiles]) "t2"
    (PStr "my-project")
  = Ok result_two_compiles.
Proof.
  apply (proj2 (validate_results_Ok_iff
                  (mkDbtRunnerResult [result_two_compiles]) "t2" "my-project"
                  result_two_compiles)).
  repeat split; reflexivity.
Defined.

Lemma get_timings_Ok_iff_witness :
  get_timings result_two_compiles
  = Ok {[ "timing" := PDict
            (<["compile" := PDict
                 (<["started_at" := PStr "2023-09-01T10:00:00"]>
                 (<["completed_at" := PStr "2023-09-01T10:00:01"]> ∅))]>
            (<["execute" := PDict
                 (<["started_at" := PStr "2023-09-01T10:00:01"]>
                 (<["completed_at" := PStr "2023-09-01T10:00:05"]> ∅))]> ∅)) ]}.
Proof.
  apply (proj2 (get_timings_Ok_iff result_two_compiles _)).
  exists (mkTimingInfo "compile" (Some (mkDatetime "2023-09-01T10:00:00"))
            (Some (mkDatetime "2023-09-01T10:00:01"))),
         (mkTimingInfo "execute" (Some (mkDatetime "2023-09-01T10:00:01"))
            (Some (mkDatetime "2023-09-01T10:00:05"))),
         (mkDatetime "2023-09-01T10:00:00"), (mkDatetime "2023-09-01T10:00:01"),
         (mkDatetime "2023-09-01T10:00:01"), (mkDatetime "2023-09-01T10:00:05").
  repeat split; reflexivity.
Defined.

Lemma parse_results_after_validation_witness :
  ∃ pr,
    parse_results (denv := dbt_env0) (mkDbtRunnerResult [result_two_compiles])
      "t2" (PStr "my-project") = Ok pr
    ∧ pr_name pr = "t2"
    ∧ pr_path pr = "sql://postgres/db/public/t2".
Proof.
  destruct (parse_results_after_validation (denv := dbt_env0)
              (mkDbtRunnerResult [result_two_compiles]) "t2" (PStr "my-project")
              result_two_compiles eq_refl
              (λ s e (H : Ok s = Raise e), match H with end))
    as [(pr & Hpr & Hname & Hpath & _)|H].
  - exists pr. split; [exact Hpr|]. split; [exact Hname|].
    assert (Hp : get_path result_two_compiles
                 = Ok "sql://postgres/db/public/t2") by reflexivity.
    rewrite Hp in Hpath. by injection Hpath.
  - exfalso. vm_compute in H. discriminate H.
Defined.

Lemma get_path_shape_witness :
  ∃ c, get_path result_two_compiles = Ok ("sql://postgres/" +:+ c)
       ∧ no_char "." c ∧ no_char "034" c.
Proof.
  destruct (get_path_shape result_two_compiles "sql://postgres/db/public/t2"
              eq_refl) as (name & c & _ & Hp & _ & Hdot & Hdq).
  exists c. split; [by rewrite <- Hp|]. done.
Defined.

Lemma materialize_inputs_stops_witness :
  ∃ w2,
    materialize_inputs (denv := dbt_env1) [PStr "t1"; PStr "t9"; PStr "t1"]
      (PStr "ns") world0
    = (w2, Raise (Exn RuntimeError "Dataitem t9 not found in project ns"))
    ∧ length (w_sent w2) = 1.
Proof.
  set (w1 := (write_df (DbtEnv := dbt_env1)
                (mkDataitem "ns" "dataitem" "t1" "v0")
                "sql://postgres/db/public/t1_vv0" world0).1).
  exists w1. split; [|reflexivity].
  apply (materialize_inputs_stops (denv := dbt_env1) (PStr "ns") (PStr "t9")
           [PStr "t1"] [PStr "t1"] world0 w1 w1
           (Exn (OtherException "BackendError") "not found")).
  - apply (materialized_cons (PStr "ns") (PStr "t1") []
             (mkDataitem "ns" "dataitem" "t1" "v0") world0 world0 w1 w1);
      [reflexivity|reflexivity|constructor].
  - reflexivity.
  - reflexivity.
Defined.

Lemma RuntimeDBT_transform_no_outputs_witness :
  RuntimeDBT_transform (denv := dbt_env0) run_dict_no_outputs world0
  = (world0, Raise (Exn IndexError "list index out of range")).
Proof.
  apply (RuntimeDBT_transform_no_outputs (denv := dbt_env0) run_dict_no_outputs
           [PStr "t1"] world0 world0 eq_refl).
  - apply (materialized_cons (PStr "ns") (PStr "t1") []
             (mkDataitem "ns" "dataitem" "t1" "v0") world0 world0 world0 world0);
      [reflexivity|reflexivity|constructor].
  - reflexivity.
Defined.

Lemma RuntimeDBT_transform_keys_witness :
  let out := RuntimeDBT_transform (denv := dbt_env0)
               (run_dict0 scenario_task State_PENDING) world0 in
  let d := match out.2 with Ok (PDict d) => d | _ => ∅ end in
  is_Some (d !! "timing") ∧ ¬ is_Some (d !! "message").
Proof.
  cbn zeta.
  set (out := RuntimeDBT_transform (denv := dbt_env0)
                (run_dict0 scenario_task State_PENDING) world0).
  set (d := match out.2 with Ok (PDict d) => d | _ => ∅ end).
  assert (H : out = (out.1, Ok (PDict d))) by (vm_compute; reflexivity).
  split.
  - apply (RuntimeDBT_transform_keys (denv := dbt_env0) _ d world0 out.1
             "timing" H). auto.
  - intros Hm.
    apply (RuntimeDBT_transform_keys (denv := dbt_env0) _ d world0 out.1
             "message" H) in Hm.
    by destruct Hm as [|[|]].
Defined.

Lemma Run__parse_dict_mandatory_witness :
  Run__parse_dict (builders := builders0) (delete "task_id" backend_run0) world0
  = (world0, Raise (Exn EntityError "Project, task or task_id are not specified.")).
Proof.
  apply (Run__parse_dict_mandatory (builders := builders0)).
  right. left. reflexivity.
Defined.

Lemma Run_from_dict_raises_witness :
  ∃ message,
    Run_from_dict (builders := builders0) backend_run0 world0
    = (world0, Raise (Exn TypeError message)).
Proof.
  set (out := Run__parse_dict (builders := builders0) backend_run0 world0).
  set (dflt := mkParsedDict PNone "" (mkRunMetadata "" ∅) ∅ ∅ PNone PNone PNone).
  apply (proj2 (Run_from_dict_raises (builders := builders0) backend_run0 world0)
           world0 (match out.2 with Ok p => p | Raise _ => dflt end)).
  reflexivity.
Defined.

Lemma Run__parse_dict_ignores_task_witness :
  let out := Run__parse_dict (builders := builders0) backend_run0 world0 in
  let dflt := mkParsedDict PNone "" (mkRunMetadata "" ∅) ∅ ∅ PNone PNone PNone in
  let parsed := match out.2 with Ok p => p | Raise _ => dflt end in
  pd_spec parsed = spec0 scenario_task
  ∧ Run__parse_dict (builders := builders0)
      (<["task" := PStr "other"]> backend_run0) world0
    = (world0, Ok (mkParsedDict (pd_uuid parsed) (pd_kind parsed)
                     (pd_metadata parsed) (pd_spec parsed) (pd_status parsed)
                     (pd_project parsed) (pd_task_id parsed) (PStr "other"))).
Proof.
  cbn zeta. split; [reflexivity|].
  apply (Run__parse_dict_ignores_task (builders := builders0) backend_run0
           world0 world0 _ (PStr "other") eq_refl eq_refl).
  reflexivity.
Defined.
